(* Verification of the RoosterScan server routes:
   - routes/pose.ts        POST /api/pose/detect (mock mode, subprocess, reshaping)
   - routes/scans.ts       GET /api/scans, GET /api/scans/:id, POST /api/scans mappers
   - routes/reports.ts     POST /api/reports (ownership check, injury counts)
   - routes/auth.ts        requireAuth in front of POST /api/reports
   - routes/upload.ts      POST /api/upload (multer filter and limit, object path)
   - lib/supabase.ts       getUserIdFromAuth *)

From Stdlib Require Import String Ascii List Bool ZArith QArith Lia.
Import ListNotations.
Open Scope string_scope.
Set Warnings "-register-all".

(* ========================================================================== *)
(** * JavaScript values *)

(** The JSON-shaped values the handlers read and write.  [JUndef] is
    [undefined]; numbers are rationals (every JSON number literal is one). *)
Inductive jsval : Type :=
| JUndef
| JNull
| JBool (b : bool)
| JNum (q : Q)
| JStr (s : string)
| JArr (l : list jsval)
| JObj (fields : list (string * jsval)).

(** Property lookup [o.k] on an object: the last binding of a key wins, as
    [JSON.parse] keeps the last duplicate. Non-objects have no own fields. *)
Fixpoint assoc_last (k : string) (fs : list (string * jsval)) : jsval :=
  match fs with
  | [] => JUndef
  | (k', v) :: r =>
      match assoc_last k r with
      | JUndef => if String.eqb k k' then v else JUndef
      | w => w
      end
  end.

(** [v.k] where [v] is neither [null] nor [undefined]. *)
Definition get (v : jsval) (k : string) : jsval :=
  match v with
  | JObj fs => assoc_last k fs
  | _ => JUndef
  end.

(** [v.k] in general: reading a property of [null] or [undefined] throws a
    TypeError ([None]). *)
Definition get_strict (v : jsval) (k : string) : option jsval :=
  match v with
  | JUndef | JNull => None
  | _ => Some (get v k)
  end.

(** [v?.k] *)
Definition get_opt (v : jsval) (k : string) : jsval :=
  match v with
  | JUndef | JNull => JUndef
  | _ => get v k
  end.

(** JavaScript truthiness. *)
Definition truthy (v : jsval) : bool :=
  match v with
  | JUndef | JNull => false
  | JBool b => b
  | JNum q => negb (Qeq_bool q 0)
  | JStr s => negb (String.eqb s "")
  | JArr _ | JObj _ => true
  end.

(** [a || b] *)
Definition js_or (a b : jsval) : jsval := if truthy a then a else b.

(** [v === 'lit'] for a string literal. *)
Definition is_str (v : jsval) (lit : string) : bool :=
  match v with
  | JStr s => String.eqb s lit
  | _ => false
  end.

(** [Array.isArray(v)] *)
Definition is_array (v : jsval) : bool :=
  match v with JArr _ => true | _ => false end.

(* ========================================================================== *)
(** * JSON.parse *)

Definition is_ws (c : ascii) : bool :=
  match nat_of_ascii c with 32%nat | 9%nat | 10%nat | 13%nat => true | _ => false end.

Fixpoint skip_ws (s : string) : string :=
  match s with
  | String c r => if is_ws c then skip_ws r else s
  | EmptyString => s
  end.

Definition is_digit (c : ascii) : bool :=
  let n := nat_of_ascii c in Nat.leb 48%nat n && Nat.leb n 57%nat.

Definition digit_val (c : ascii) : Z := Z.of_nat (nat_of_ascii c - 48)%nat.

(** A maximal run of decimal digits, as (value, count, rest). *)
Fixpoint digits_aux (s : string) (acc : Z) (n : nat) : Z * nat * string :=
  match s with
  | String c r => if is_digit c then digits_aux r (acc * 10 + digit_val c)%Z (S n)
                  else (acc, n, s)
  | EmptyString => (acc, n, s)
  end.

Definition digits (s : string) : Z * nat * string := digits_aux s 0%Z O.

Definition hex_val (c : ascii) : option Z :=
  let n := nat_of_ascii c in
  if is_digit c then Some (Z.of_nat (n - 48)%nat)
  else if Nat.leb 97%nat n && Nat.leb n 102%nat then Some (Z.of_nat (n - 87)%nat)
  else if Nat.leb 65%nat n && Nat.leb n 70%nat then Some (Z.of_nat (n - 55)%nat)
  else None.

(** Outcome of a parsing step: a value and the remaining text, a syntax
    error, or the fuel bound reached (kept apart from syntax errors). *)
Inductive presult (A : Type) : Type :=
| POk (a : A) (rest : string)
| PErr
| PFuel.
Arguments POk {A}. Arguments PErr {A}. Arguments PFuel {A}.

(** Number: optional minus, integer part ([0] or a non-zero digit and
    more digits), optional fraction, optional exponent; a leading
    zero ends the integer part, so a following digit is left to the caller,
    which then rejects it. *)
Definition scale (m : Z) (e : Z) : Q :=
  if Z.leb 0 e then inject_Z (m * 10 ^ e)%Z else Qmake m (Z.to_pos (10 ^ (- e))%Z).

Definition parse_int_part (s : string) : option (Z * string) :=
  match s with
  | String "0"%char r => Some (0%Z, r)
  | String c _ =>
      if is_digit c then let '(v, _, r) := digits s in Some (v, r) else None
  | EmptyString => None
  end.

Definition parse_frac (s : string) : option (Z * nat * string) :=
  match s with
  | String "."%char r =>
      let '(v, n, r') := digits r in
      if Nat.eqb n O then None else Some (v, n, r')
  | _ => Some (0%Z, O, s)
  end.

Definition parse_exp (s : string) : option (Z * string) :=
  match s with
  | String c r =>
      if Ascii.eqb c "e"%char || Ascii.eqb c "E"%char then
        let '(sg, r1) := match r with
                         | String "+"%char r1 => (1%Z, r1)
                         | String "-"%char r1 => ((-1)%Z, r1)
                         | _ => (1%Z, r)
                         end in
        let '(v, n, r2) := digits r1 in
        if Nat.eqb n O then None else Some ((sg * v)%Z, r2)
      else Some (0%Z, s)
  | EmptyString => Some (0%Z, s)
  end.

Definition parse_number (s : string) : presult jsval :=
  let '(sg, s1) := match s with
                   | String "-"%char r => ((-1)%Z, r)
                   | _ => (1%Z, s)
                   end in
  match parse_int_part s1 with
  | None => PErr
  | Some (ip, s2) =>
    match parse_frac s2 with
    | None => PErr
    | Some (fv, fn, s3) =>
      match parse_exp s3 with
      | None => PErr
      | Some (e, s4) =>
          POk (JNum (scale (sg * (ip * 10 ^ Z.of_nat fn + fv))%Z (e - Z.of_nat fn)%Z)) s4
      end
    end
  end.

(** The double-quote character. *)
Definition dq : ascii := ascii_of_nat 34%nat.

Definition escape_char (e : ascii) : option ascii :=
  if Ascii.eqb e dq then Some dq
  else if Ascii.eqb e "\"%char then Some "\"%char
  else if Ascii.eqb e "/"%char then Some "/"%char
  else if Ascii.eqb e "b"%char then Some (ascii_of_nat 8%nat)
  else if Ascii.eqb e "f"%char then Some (ascii_of_nat 12%nat)
  else if Ascii.eqb e "n"%char then Some (ascii_of_nat 10%nat)
  else if Ascii.eqb e "r"%char then Some (ascii_of_nat 13%nat)
  else if Ascii.eqb e "t"%char then Some (ascii_of_nat 9%nat)
  else None.

(** Strings of the model hold 8-bit characters: a [\uXXXX] escape above
    U+00FF is kept as ['?']; this affects string contents, never validity. *)
Definition unicode_char (n : Z) : ascii :=
  if Z.ltb n 256%Z then ascii_of_nat (Z.to_nat n) else "?"%char.

Definition cons_res (c : ascii) (r : presult string) : presult string :=
  match r with
  | POk t rest => POk (String c t) rest
  | PErr => PErr
  | PFuel => PFuel
  end.

(** Body of a string literal, after its opening quote. *)
Fixpoint parse_chars (s : string) : presult string :=
  match s with
  | EmptyString => PErr
  | String c r =>
    if Ascii.eqb c dq then POk EmptyString r
    else if Ascii.eqb c "\"%char then
      match r with
      | String e r' =>
        if Ascii.eqb e "u"%char then
          match r' with
          | String h1 (String h2 (String h3 (String h4 r''))) =>
            match hex_val h1, hex_val h2, hex_val h3, hex_val h4 with
            | Some a, Some b, Some c', Some d =>
                cons_res (unicode_char (a * 4096 + b * 256 + c' * 16 + d)%Z)
                         (parse_chars r'')
            | _, _, _, _ => PErr
            end
          | _ => PErr
          end
        else
          match escape_char e with
          | Some ch => cons_res ch (parse_chars r')
          | None => PErr
          end
      | EmptyString => PErr
      end
    else if Nat.ltb (nat_of_ascii c) 32%nat then PErr
    else cons_res c (parse_chars r)
  end.

Fixpoint strip_prefix (p s : string) : option string :=
  match p, s with
  | EmptyString, _ => Some s
  | String a p', String b s' => if Ascii.eqb a b then strip_prefix p' s' else None
  | String _ _, EmptyString => None
  end.

Definition lift_str (r : presult string) : presult jsval :=
  match r with
  | POk t rest => POk (JStr t) rest
  | PErr => PErr
  | PFuel => PFuel
  end.

Fixpoint parse_value (fuel : nat) (s : string) {struct fuel} : presult jsval :=
  match fuel with
  | O => PFuel
  | S f =>
    match skip_ws s with
    | EmptyString => PErr
    | String c r =>
      if Ascii.eqb c "{"%char then
        match skip_ws r with
        | String "}"%char r' => POk (JObj []) r'
        | _ => parse_members f r []
        end
      else if Ascii.eqb c "["%char then
        match skip_ws r with
        | String "]"%char r' => POk (JArr []) r'
        | _ => parse_elements f r []
        end
      else if Ascii.eqb c dq then lift_str (parse_chars r)
      else if Ascii.eqb c "-"%char || is_digit c then parse_number (String c r)
      else match strip_prefix "true" (String c r) with
           | Some r' => POk (JBool true) r'
           | None =>
             match strip_prefix "false" (String c r) with
             | Some r' => POk (JBool false) r'
             | None =>
               match strip_prefix "null" (String c r) with
               | Some r' => POk JNull r'
               | None => PErr
               end
             end
           end
    end
  end
with parse_members (fuel : nat) (s : string) (acc : list (string * jsval))
  {struct fuel} : presult jsval :=
  match fuel with
  | O => PFuel
  | S f =>
    match skip_ws s with
    | String c r =>
      if Ascii.eqb c dq then
        match parse_chars r with
        | POk k r1 =>
          match skip_ws r1 with
          | String ":"%char r2 =>
            match parse_value f r2 with
            | POk v r3 =>
              match skip_ws r3 with
              | String ","%char r4 => parse_members f r4 ((k, v) :: acc)
              | String "}"%char r4 => POk (JObj (rev ((k, v) :: acc))) r4
              | _ => PErr
              end
            | PErr => PErr
            | PFuel => PFuel
            end
          | _ => PErr
          end
        | PErr => PErr
        | PFuel => PFuel
        end
      else PErr
    | EmptyString => PErr
    end
  end
with parse_elements (fuel : nat) (s : string) (acc : list jsval)
  {struct fuel} : presult jsval :=
  match fuel with
  | O => PFuel
  | S f =>
    match parse_value f s with
    | POk v r1 =>
      match skip_ws r1 with
      | String ","%char r2 => parse_elements f r2 (v :: acc)
      | String "]"%char r2 => POk (JArr (rev (v :: acc))) r2
      | _ => PErr
      end
    | PErr => PErr
    | PFuel => PFuel
    end
  end.

(** Every call that does not consume input is followed by one that does,
    so twice the length plus two is enough fuel. *)
Definition json_fuel (text : string) : nat := (2 * String.length text + 2)%nat.

Definition json_parse_raw (text : string) : presult jsval :=
  match parse_value (json_fuel text) text with
  | POk v r => match skip_ws r with
               | EmptyString => POk v EmptyString
               | _ => PErr
               end
  | PErr => PErr
  | PFuel => PFuel
  end.

(** [JSON.parse(text)]: [None] is the SyntaxError it throws. *)
Definition JSON_parse (text : string) : option jsval :=
  match json_parse_raw text with
  | POk v _ => Some v
  | _ => None
  end.

(* ========================================================================== *)
(** * routes/pose.ts: POST /api/pose/detect *)

(** [output.match(/\{.*\}/s)]: the leftmost match starts at the first ['{']
    and, [.*] being greedy and [s] letting [.] match newlines, ends at the
    last ['}'] after it. *)
Fixpoint from_open_brace (s : string) : option string :=
  match s with
  | EmptyString => None
  | String c r => if Ascii.eqb c "{"%char then Some s else from_open_brace r
  end.

Fixpoint upto_last_close (s : string) : option string :=
  match s with
  | EmptyString => None
  | String c r =>
      match upto_last_close r with
      | Some p => Some (String c p)
      | None => if Ascii.eqb c "}"%char then Some (String c EmptyString) else None
      end
  end.

Definition match_json (output : string) : option string :=
  match from_open_brace output with
  | Some (String c rest) =>
      match upto_last_close rest with
      | Some p => Some (String c p)
      | None => None
      end
  | _ => None
  end.

(** [path.join(__dirname, ...)] of the three artifacts; [__dirname] is the
    fixed directory of the route module, so each is a fixed path. *)
Definition modelPath : string := "../../rooster_pose_model.pt".
Definition bumblefootModelPath : string := "../../rooster_bumblefoot_model.pt".
Definition sequentialScriptPath : string := "../scripts/sequential_analysis.py".

(** The local filesystem: the paths that exist. *)
Definition fs_state := list string.

Definition existsSync (p : string) (fs : fs_state) : bool :=
  existsb (String.eqb p) fs.

(** [fs.unlinkSync(p)]: throws (ENOENT) when [p] does not exist. *)
Definition unlinkSync (p : string) (fs : fs_state) : option fs_state :=
  if existsSync p fs then Some (filter (fun q => negb (String.eqb q p)) fs)
  else None.

Record response := mk_resp { status : Z; body : jsval }.

Definition failure (msg : string) : jsval :=
  JObj [("success", JBool false); ("error", JStr msg)].

Definition kp (name : string) (x y : Z) (c : Q) : jsval :=
  JObj [("name", JStr name); ("x", JNum (inject_Z x)); ("y", JNum (inject_Z y));
        ("confidence", JNum c)].

Definition mock_recommendations : jsval :=
  JArr [JStr "AI models not deployed - showing mock data";
        JStr "Upload successful - frontend integration working";
        JStr "Deploy AI models to Railway to enable real analysis"].

Definition mock_keypoints : jsval :=
  JArr [kp "beak_tip" 100 50 (9 # 10); kp "eye" 120 60 (85 # 100);
        kp "comb_top" 110 30 (8 # 10)].

(** The canned payload returned when the pose model is missing. *)
Definition mock_payload : jsval :=
  JObj [("success", JBool true);
        ("keypoints", mock_keypoints);
        ("confidence", JNum (85 # 100));
        ("pose_confidence", JNum (85 # 100));
        ("health_assessment", JStr "healthy");
        ("recommendations", mock_recommendations);
        ("combined_analysis",
          JObj [("health_assessment", JStr "healthy");
                ("combined_confidence", JNum (85 # 100));
                ("recommendations", mock_recommendations);
                ("specific_findings", JArr [])]);
        ("injury_analysis",
          JObj [("risk_level", JStr "low");
                ("detected_issues", JArr []);
                ("recommendations", mock_recommendations)])].

(** The checks before the spawn, for an uploaded file stored at [imagePath]:
    [Some r] answers the request with [r], [None] goes on to spawn.  The
    [readdirSync] of the logging line reads the server directory, which holds
    the running module and so exists. *)
Definition detect_checks (fs : fs_state) : option response :=
  if negb (existsSync modelPath fs) then Some (mk_resp 200 mock_payload)
  else if negb (existsSync bumblefootModelPath fs) then
    Some (mk_resp 500 (failure "Bumblefoot classification model not found"))
  else if negb (existsSync sequentialScriptPath fs) then
    Some (mk_resp 500 (failure "Sequential analysis script not found"))
  else None.

(** The message of the SyntaxError thrown by [JSON.parse]; its wording is
    the engine's and is not modelled. *)
Definition syntax_error_message : string := "Unexpected token in JSON".

Definition parse_failure (msg output : string) : response :=
  mk_resp 500 (failure ("Failed to parse sequential analysis results: " ++ msg
                        ++ ". Output: " ++ output)).

(** The response built when [result.success] is truthy. *)
Definition success_response (result : jsval) : jsval :=
  JObj [("success", JBool true);
        ("analysis_type", js_or (get result "analysis_type") (JStr "sequential_validation"));
        ("overall_status", get result "overall_status");
        ("keypoints", js_or (get_opt (get result "pose_detection") "keypoints") (JArr []));
        ("confidence", js_or (get_opt (get result "pose_detection") "pose_confidence") (JNum 0));
        ("pose_detection", get result "pose_detection");
        ("injury_classification", get result "injury_classification");
        ("combined_analysis",
          JObj [("health_assessment", get result "health_assessment");
                ("combined_confidence", get result "combined_confidence");
                ("recommendations", get result "recommendations");
                ("specific_findings", get result "specific_findings")]);
        ("injury_analysis",
          JObj [("risk_level",
                  JStr (if is_str (get result "health_assessment") "injured"
                        then "high" else "low"));
                ("detected_issues", js_or (get result "specific_findings") (JArr []));
                ("recommendations", js_or (get result "recommendations") (JArr []))])].

(** The response of the [close] listener, after the unlink, for exit status
    [code] ([None] is [null], a process ended by a signal). *)
Definition close_response (code : option Z) (output error : string) : response :=
  match code with
  | Some 0%Z =>
    match match_json output with
    | None => parse_failure "No JSON found in output" output
    | Some m =>
      match JSON_parse m with
      | None => parse_failure syntax_error_message output
      | Some result =>
        match get_strict result "success" with
        | None => parse_failure "Cannot read properties of null" output
        | Some ok =>
          if truthy ok then mk_resp 200 (success_response result)
          else mk_resp 500
                 (JObj [("success", JBool false);
                        ("error", js_or (get result "error") (JStr "Sequential analysis failed"));
                        ("stage", js_or (get result "stage") (JStr "unknown"))])
        end
      end
    end
  | _ => mk_resp 500 (failure ("Pose detection failed: " ++ error))
  end.

(** What the spawned process does: whether [spawn] failed (no [python] on the
    path, say), its exit status and captured streams. A failed spawn emits
    ['error'] on the child process; the handler has no listener for it, so it
    is thrown outside the [try] and the server process dies: no answer is
    sent and the [close] listener, which removes the upload, never runs. *)
Record proc_result := mk_proc_full {
  spawn_failed : bool; exit_code : option Z; stdout : string; stderr : string }.

(** A process that was started and ran to its exit. *)
Definition mk_proc (code : option Z) (out err : string) : proc_result :=
  mk_proc_full false code out err.

(** A run of the handler: final filesystem, the response ([None] when the
    [close] listener throws, which is uncaught), the processes spawned and
    the paths passed to [unlinkSync]. *)
Record outcome := mk_outcome {
  out_fs : fs_state;
  out_resp : option response;
  spawned : list (string * list string);
  unlinked : list string }.

(** The handler; [file] is [req.file.path] once multer has stored the upload
    ([None] when no file was sent). *)
Definition detect (file : option string) (fs : fs_state) (pr : proc_result) : outcome :=
  match file with
  | None => mk_outcome fs (Some (mk_resp 400 (failure "No image file provided"))) [] []
  | Some imagePath =>
    match detect_checks fs with
    | Some r => mk_outcome fs (Some r) [] []
    | None =>
      let proc := ("python", [sequentialScriptPath; imagePath; modelPath; bumblefootModelPath]) in
      if spawn_failed pr then mk_outcome fs None [proc] []
      else
        match unlinkSync imagePath fs with
        | None => mk_outcome fs None [proc] [imagePath]
        | Some fs' =>
            mk_outcome fs' (Some (close_response (exit_code pr) (stdout pr) (stderr pr)))
                       [proc] [imagePath]
        end
    end
  end.

(* ========================================================================== *)
(** * lib/supabase.ts: getUserIdFromAuth *)

Definition placeholder_user : string := "00000000-0000-0000-0000-000000000001".

Definition startsWith (s p : string) : bool :=
  match strip_prefix p s with Some _ => true | None => false end.

(** [authHeader] is [None] when the header is absent.  The [try] branch
    reads the token with [substring(7)], which cannot throw on a string. *)
Definition getUserIdFromAuth (authHeader : option string) : string :=
  match authHeader with
  | None => placeholder_user
  | Some h =>
      if negb (truthy (JStr h)) || negb (startsWith h "Bearer ") then placeholder_user
      else let _token := substring 7 (String.length h - 7) h in
           placeholder_user
  end.

(* ========================================================================== *)
(** * routes/scans.ts: the row mappers *)

(** A [scans] row, with the columns the mappers compute with;
    [analysis_confidence] is a nullable numeric column. *)
Record scan_row := mk_scan {
  scan_id : string;
  scan_user_id : string;
  injury_detections : jsval;
  analysis_confidence : option Q }.

Record mapped_scan := mk_mapped {
  m_id : string;
  m_userId : string;
  m_injuryDetections : jsval;
  m_analysisConfidence : option Q;
  m_injuries : list jsval;
  m_severity : string }.

Fixpoint map_opt {A B} (f : A -> option B) (l : list A) : option (list B) :=
  match l with
  | [] => Some []
  | x :: r => match f x, map_opt f r with
              | Some y, Some ys => Some (y :: ys)
              | _, _ => None
              end
  end.

(** [Array.isArray(d) ? d.map(inj => inj.type || 'Unknown') : []]; [None]
    is the TypeError of an entry that is [null]. *)
Definition injuries_of (d : jsval) : option (list jsval) :=
  match d with
  | JArr l => map_opt (fun inj => option_map (fun t => js_or t (JStr "Unknown"))
                                             (get_strict inj "type")) l
  | _ => Some []
  end.

(** [l.some(inj => inj.severity === 'severe')], stopping at the first hit. *)
Fixpoint some_severe (l : list jsval) : option bool :=
  match l with
  | [] => Some false
  | inj :: r =>
      match get_strict inj "severity" with
      | None => None
      | Some s => if is_str s "severe" then Some true else some_severe r
      end
  end.

(** [getScans]: severity from the injury array. *)
Definition severity_from_injuries (d : jsval) : option string :=
  match d with
  | JArr ((_ :: _) as l) =>
      option_map (fun b : bool => if b then "high" else "medium") (some_severe l)
  | _ => Some "low"
  end.

(** [x > t] for a nullable number ([null] compares as 0). *)
Definition conf_gt (c : option Q) (t : Q) : bool :=
  let x := match c with Some q => q | None => 0 end in
  negb (Qle_bool x t).

(** [getScanById] and [createScan]: severity from the analysis confidence. *)
Definition severity_from_confidence (c : option Q) : string :=
  if conf_gt c (8 # 10) then "high"
  else if conf_gt c (5 # 10) then "medium"
  else "low".

(** The mapper of [getScans]. *)
Definition map_scan_list (scan : scan_row) : option mapped_scan :=
  match injuries_of (injury_detections scan) with
  | None => None
  | Some inj =>
    match severity_from_injuries (injury_detections scan) with
    | None => None
    | Some sev =>
        Some (mk_mapped (scan_id scan) (scan_user_id scan) (injury_detections scan)
                        (analysis_confidence scan) inj sev)
    end
  end.

(** The mapper of [getScanById], and of [createScan] on the inserted row
    (the two mappers are the same text). *)
Definition map_scan_single (scan : scan_row) : option mapped_scan :=
  match injuries_of (injury_detections scan) with
  | None => None
  | Some inj =>
      Some (mk_mapped (scan_id scan) (scan_user_id scan) (injury_detections scan)
                      (analysis_confidence scan) inj
                      (severity_from_confidence (analysis_confidence scan)))
  end.

Definition getScanById_mapper := map_scan_single.
Definition createScan_mapper := map_scan_single.

(* ========================================================================== *)
(** * routes/reports.ts: createReport *)

(** [String.prototype.trim] on the model's 8-bit characters (U+00A0 included). *)
Definition is_js_ws (c : ascii) : bool :=
  match nat_of_ascii c with
  | 9%nat | 10%nat | 11%nat | 12%nat | 13%nat | 32%nat | 160%nat => true
  | _ => false
  end.

Fixpoint trim_left (s : string) : string :=
  match s with
  | String c r => if is_js_ws c then trim_left r else s
  | EmptyString => s
  end.

Definition reverse_string (s : string) : string :=
  string_of_list_ascii (rev (list_ascii_of_string s)).

Definition js_trim (s : string) : string :=
  reverse_string (trim_left (reverse_string (trim_left s))).

(** [s?.trim() || null] *)
Definition trim_or_null (s : option string) : jsval :=
  match s with
  | Some t => if String.eqb (js_trim t) "" then JNull else JStr (js_trim t)
  | None => JNull
  end.

Record create_report_request := mk_req {
  req_scanId : option string;
  req_roosterId : option string;
  req_title : option string;
  req_summary : option string;
  req_detailedAnalysis : option string;
  req_recommendations : option string;
  req_overallHealthScore : jsval;
  req_mobilityScore : jsval;
  req_postureScore : jsval;
  req_reportType : option string }.

(** A [health_reports] row as inserted (the id and timestamps are generated
    by the database). *)
Record report_row := mk_report {
  rep_scan_id : string;
  rep_rooster_id : string;
  rep_user_id : string;
  rep_title : string;
  rep_summary : jsval;
  rep_detailed_analysis : jsval;
  rep_recommendations : jsval;
  rep_overall_health_score : jsval;
  rep_mobility_score : jsval;
  rep_posture_score : jsval;
  rep_total_injuries_detected : nat;
  rep_high_priority_injuries : nat;
  rep_report_type : string;
  rep_status : string }.

(** The two tables the handler reads and writes. *)
Record db := mk_db { scans : list scan_row; health_reports : list report_row }.

(** [.from('scans').select(...).eq('id', sid).eq('user_id', uid).single()]:
    an error unless exactly one row matches. *)
Definition select_scan (rows : list scan_row) (sid uid : string) : option scan_row :=
  match filter (fun r => String.eqb (scan_id r) sid && String.eqb (scan_user_id r) uid) rows with
  | [r] => Some r
  | _ => None
  end.

(** [l.filter(inj => inj.severity === 'severe').length]; [None] is the
    TypeError of a [null] entry. *)
Fixpoint count_severe (l : list jsval) : option nat :=
  match l with
  | [] => Some O
  | inj :: r =>
      match get_strict inj "severity", count_severe r with
      | Some s, Some n => Some (if is_str s "severe" then S n else n)
      | _, _ => None
      end
  end.

(** [totalInjuries] and [highPriorityInjuries] from [scan.injury_detections]. *)
Definition injury_counts (d : jsval) : option (nat * nat) :=
  match js_or d (JArr []) with
  | JArr l => option_map (fun h => (length l, h)) (count_severe l)
  | _ => Some (O, O)
  end.

Definition api_error (msg : string) : jsval :=
  JObj [("error", JStr msg); ("success", JBool false)].

Definition nat_js (n : nat) : jsval := JNum (inject_Z (Z.of_nat n)).

Definition report_json (r : report_row) : jsval :=
  JObj [("scanId", JStr (rep_scan_id r)); ("roosterId", JStr (rep_rooster_id r));
        ("userId", JStr (rep_user_id r)); ("title", JStr (rep_title r));
        ("summary", rep_summary r); ("detailedAnalysis", rep_detailed_analysis r);
        ("recommendations", rep_recommendations r);
        ("overallHealthScore", rep_overall_health_score r);
        ("mobilityScore", rep_mobility_score r); ("postureScore", rep_posture_score r);
        ("totalInjuriesDetected", nat_js (rep_total_injuries_detected r));
        ("highPriorityInjuries", nat_js (rep_high_priority_injuries r));
        ("reportType", JStr (rep_report_type r)); ("status", JStr (rep_status r))].

Definition bad_request : response :=
  mk_resp 400 (api_error "scanId, roosterId, and title are required").

(** The handler; [insert_ok] is the storage service's answer to the insert. *)
Definition createReport (auth : option string) (body : create_report_request)
    (d : db) (insert_ok : bool) : response * db :=
  let userId := getUserIdFromAuth auth in
  match req_scanId body, req_roosterId body, req_title body with
  | Some sid, Some rid, Some title =>
    if String.eqb sid "" || String.eqb rid "" || String.eqb (js_trim title) "" then
      (bad_request, d)
    else
      match select_scan (scans d) sid userId with
      | None => (mk_resp 404 (api_error "Scan not found or access denied"), d)
      | Some scan =>
        match injury_counts (injury_detections scan) with
        | None => (mk_resp 500 (api_error "Failed to create report"), d)
        | Some (total, high) =>
          let row := mk_report sid rid userId (js_trim title)
                       (trim_or_null (req_summary body))
                       (trim_or_null (req_detailedAnalysis body))
                       (trim_or_null (req_recommendations body))
                       (js_or (req_overallHealthScore body) JNull)
                       (js_or (req_mobilityScore body) JNull)
                       (js_or (req_postureScore body) JNull)
                       total high
                       (match req_reportType body with
                        | Some t => if String.eqb t "" then "automated" else t
                        | None => "automated"
                        end)
                       "draft" in
          if insert_ok then
            (mk_resp 201 (JObj [("data", report_json row); ("success", JBool true)]),
             mk_db (scans d) (health_reports d ++ [row]))
          else (mk_resp 500 (api_error "Failed to create report"), d)
        end
      end
  | _, _, _ => (bad_request, d)
  end.

(** The required-field check [!body.scanId || !body.roosterId ||
    !body.title?.trim()], negated: [true] when the request passes it. *)
Definition report_fields_ok (req : create_report_request) : bool :=
  match req_scanId req, req_roosterId req, req_title req with
  | Some sid, Some rid, Some title =>
      negb (String.eqb sid "" || String.eqb rid "" || String.eqb (js_trim title) "")
  | _, _, _ => false
  end.

(** How many rows of [scans] have the given id and owner. *)
Definition owned_matches (rows : list scan_row) (sid uid : string) : nat :=
  length (filter (fun r => String.eqb (scan_id r) sid && String.eqb (scan_user_id r) uid) rows).

(* ========================================================================== *)
(** * routes/pose.ts: analyzePoseForInjuries *)

Record keypoint := mk_kp { kp_name : string; kp_x : Q; kp_y : Q; kp_confidence : Q }.

Inductive risk := RLow | RMedium | RHigh.

Record injury_analysis := mk_analysis {
  risk_level : risk;
  detected_issues : list string;
  recommendations : list string }.

(** [a > b] on numbers. *)
Definition qgt (a b : Q) : bool := negb (Qle_bool a b).

(** [s.includes(sub)] *)
Definition includes (sub s : string) : bool :=
  match String.index 0 sub s with Some _ => true | None => false end.

(** [keypoints.find(kp => kp.name === n)] *)
Definition find_kp (n : string) (kps : list keypoint) : option keypoint :=
  find (fun kp => String.eqb (kp_name kp) n) kps.

Definition criticalPoints : list string := ["eye"; "beak_tip"; "left_foot"; "right_foot"].

(** Names of the critical points with no keypoint of confidence above 0.5. *)
Definition missing_critical (kps : list keypoint) : list string :=
  filter (fun n => negb (existsb (fun kp => String.eqb (kp_name kp) n &&
                                             qgt (kp_confidence kp) (1 # 2)) kps))
         criticalPoints.

Definition wing_count (side : string) (kps : list keypoint) : nat :=
  length (filter (fun kp => includes side (kp_name kp)) kps).

(** [leftWing.length !== rightWing.length] *)
Definition wing_asymmetric (kps : list keypoint) : bool :=
  negb (Nat.eqb (wing_count "left_wing" kps) (wing_count "right_wing" kps)).

Section AnalyzePose.

(** [Math.abs(leftFoot.y - rightFoot.y) > 50], evaluated in double precision
    by the engine; the properties below hold whatever it answers. *)
Variable feet_uneven : Q -> Q -> bool.

(** [Math.abs(Math.atan2(beak.y - eye.y, beak.x - eye.x) * 180 / Math.PI) > 45],
    on the eye and the beak keypoints, likewise in double precision. *)
Variable head_abnormal : keypoint -> keypoint -> bool.

Definition feet_check (kps : list keypoint) : bool :=
  match find_kp "left_foot" kps, find_kp "right_foot" kps with
  | Some l, Some r => feet_uneven (kp_y l) (kp_y r)
  | _, _ => false
  end.

Definition head_check (kps : list keypoint) : bool :=
  match find_kp "eye" kps, find_kp "beak_tip" kps with
  | Some e, Some b => head_abnormal e b
  | _, _ => false
  end.

Definition analyzePoseForInjuries (kps : list keypoint) : injury_analysis :=
  let missing := missing_critical kps in
  let '(issues1, risk1) :=
    if Nat.ltb 0 (length missing)
    then (["Unable to detect critical body parts: " ++ String.concat ", " missing], RMedium)
    else ([], RLow) in
  let '(issues2, recs2, risk2) :=
    if wing_asymmetric kps
    then ((issues1 ++ ["Wing asymmetry detected - possible wing injury"])%list,
          ["Examine wings for injuries or deformities"], RHigh)
    else (issues1, [], risk1) in
  let '(issues3, recs3, risk3) :=
    if feet_check kps
    then ((issues2 ++ ["Uneven leg positioning detected"])%list,
          (recs2 ++ ["Check for leg injuries or lameness"])%list,
          match risk2 with RLow => RMedium | r => r end)
    else (issues2, recs2, risk2) in
  let '(issues4, recs4, risk4) :=
    if head_check kps
    then ((issues3 ++ ["Abnormal head positioning detected"])%list,
          (recs3 ++ ["Monitor for neurological issues or neck injuries"])%list, RMedium)
    else (issues3, recs3, risk3) in
  let recs5 :=
    match issues4 with
    | [] => (recs4 ++ ["Rooster appears healthy based on pose analysis";
                       "Continue regular health monitoring"])%list
    | _ => (recs4 ++ ["Consult with veterinarian for detailed examination";
                      "Monitor rooster behavior and movement patterns"])%list
    end in
  mk_analysis risk4 issues4 recs5.

End AnalyzePose.

(* ========================================================================== *)
(** * routes/scans.ts: createScan, the row it inserts *)

(** The row [createScan] sends to the [scans] table. *)
Record scan_insert := mk_scan_insert {
  ins_user_id : string;
  ins_rooster_id : jsval;
  ins_duration_seconds : jsval;
  ins_pose_data : jsval;
  ins_injury_detections : list jsval;
  ins_analysis_confidence : jsval;
  ins_processing_time_ms : jsval;
  ins_model_version : jsval;
  ins_fps : Z;
  ins_resolution : string;
  ins_status : string;
  ins_notes : jsval }.

(** The steps of [createScan] before the insert: 400 on missing results, a
    TypeError (answered 500) on a malformed body, or the row to insert. *)
Inductive create_scan_step :=
| CSBadRequest
| CSTypeError
| CSInsert (row : scan_insert).

(** [body.injuries?.map(injury => ({type, confidence, source})) || []]:
    anything other than an array, [null] or [undefined] has no [map]. *)
Definition injury_entries (injuries conf src : jsval) : option (list jsval) :=
  match injuries with
  | JUndef | JNull => Some []
  | JArr l => Some (map (fun i => JObj [("type", i); ("confidence", conf); ("source", src)]) l)
  | _ => None
  end.

(** [body.notes?.trim() || null]: only strings have [trim]. *)
Definition notes_of (notes : jsval) : option jsval :=
  match notes with
  | JUndef | JNull => Some JNull
  | JStr s => Some (if String.eqb (js_trim s) "" then JNull else JStr (js_trim s))
  | _ => None
  end.

(** [body] is [req.body] after [express.json()]: an object or an array. *)
Definition createScan_data (userId : string) (body : jsval) : create_scan_step :=
  match get_strict body "results" with
  | None => CSTypeError
  | Some results =>
    if negb (truthy results) then CSBadRequest else
    let poseConfidence := js_or (get results "pose_confidence")
                            (js_or (get results "combined_confidence") (JNum (75 # 100))) in
    let analysisType := js_or (get results "analysis_type") (JStr "basic_scan") in
    let sequential := is_str analysisType "sequential_validation" in
    let processingTime := js_or (get results "processing_time_estimate")
                            (JNum (if sequential then 2500 else 1000)) in
    let modelVersion := js_or (get results "model_version")
                          (JStr (if sequential then "YOLO-v8-Sequential-1.0"
                                 else "YOLO-v8-Basic-1.0")) in
    match injury_entries (get body "injuries") poseConfidence analysisType with
    | None => CSTypeError
    | Some dets =>
      let ic := get results "injury_classification" in
      let dets' := if truthy ic
                   then (dets ++ [JObj [("type", JStr "classification_result");
                                        ("confidence", js_or (get ic "confidence") poseConfidence);
                                        ("source", analysisType);
                                        ("classification_data", ic)]])%list
                   else dets in
      match notes_of (get body "notes") with
      | None => CSTypeError
      | Some notes =>
        CSInsert (mk_scan_insert userId (js_or (get body "roosterId") JNull)
                    (js_or (get body "duration") JNull) results dets' poseConfidence
                    processingTime modelVersion 30 "640x480" "completed" notes)
      end
    end
  end.

(* ========================================================================== *)
(** * routes/auth.ts: requireAuth in front of POST /api/reports *)

Inductive auth_result :=
| AuthReject (r : response)
| AuthPass (user : jsval).

Section RequireAuth.

(** [jwt.verify(token, JWT_SECRET)]: the decoded payload, [None] when it
    throws (bad signature, expired, malformed). *)
Variable jwt_verify : string -> option jsval.

Definition requireAuth (authHeader : option string) : auth_result :=
  match authHeader with
  | Some h =>
    if startsWith h "Bearer " then
      match jwt_verify (substring 7 (String.length h - 7) h) with
      | Some decoded => AuthPass (JObj [("id", get decoded "sub"); ("email", get decoded "email")])
      | None => AuthReject (mk_resp 401 (api_error "Invalid or expired token."))
      end
    else AuthReject (mk_resp 401 (api_error "Authentication required. Provide Bearer token."))
  | None => AuthReject (mk_resp 401 (api_error "Authentication required. Provide Bearer token."))
  end.

(** [app.post("/api/reports", requireAuth, createReport)] *)
Definition postReport (authHeader : option string) (body : create_report_request)
    (d : db) (insert_ok : bool) : response * db :=
  match requireAuth authHeader with
  | AuthReject r => (r, d)
  | AuthPass _ => createReport authHeader body d insert_ok
  end.

End RequireAuth.

(* ========================================================================== *)
(** * routes/upload.ts: POST /api/upload *)

(** [s.split(c)] for a one-character separator. *)
Fixpoint split_on (c : ascii) (s : string) : list string :=
  match s with
  | EmptyString => [EmptyString]
  | String x r =>
    if Ascii.eqb x c then EmptyString :: split_on c r
    else match split_on c r with
         | p :: ps => String x p :: ps
         | [] => [String x EmptyString]
         end
  end.

(** [originalname.split('.').pop()]; [split] never returns an empty array. *)
Definition fileExt (originalname : string) : string :=
  match rev (split_on "."%char originalname) with
  | e :: _ => e
  | [] => "undefined"
  end.

Record upload_file := mk_upload { originalname : string; mimetype : string; size : Z }.

(** [uploadImage]; [uuid] is the fresh [uuidv4()], [storage_ok] the storage
    service's answer, [publicUrl] its [getPublicUrl].  Second component: the
    object paths sent to storage. *)
Definition uploadImage (file : option upload_file) (uuid : string) (storage_ok : bool)
    (publicUrl : string -> string) : response * list string :=
  match file with
  | None => (mk_resp 400 (api_error "No file provided"), [])
  | Some f =>
    let filePath := "roosters/" ++ uuid ++ "." ++ fileExt (originalname f) in
    if storage_ok then
      (mk_resp 200 (JObj [("data", JObj [("url", JStr (publicUrl filePath))]);
                          ("success", JBool true)]), [filePath])
    else (mk_resp 500 (api_error "Failed to upload image"), [filePath])
  end.

(** multer's [fileFilter] *)
Definition fileFilter (mime : string) : bool := startsWith mime "image/".

(** [app.post("/api/upload", uploadMiddleware, uploadImage)]: multer refuses
    a non-image file through [fileFilter], then a file over the 5 MB limit;
    its error goes to Express's default handler, a 500 page carrying the
    message. *)
Definition upload_route (file : option upload_file) (uuid : string) (storage_ok : bool)
    (publicUrl : string -> string) : response * list string :=
  match file with
  | Some f =>
    if negb (fileFilter (mimetype f)) then (mk_resp 500 (JStr "Only image files are allowed"), [])
    else if Z.ltb (5 * 1024 * 1024) (size f) then (mk_resp 500 (JStr "File too large"), [])
    else uploadImage file uuid storage_ok publicUrl
  | None => uploadImage None uuid storage_ok publicUrl
  end.

(* ========================================================================== *)
(** * routes/scans.ts: the getScans handler *)

(** The answer of [getScans]: the mapped rows, or the 500 of the [catch]
    when a mapper throws. *)
Inductive scans_answer :=
| ScansOk (l : list mapped_scan)
| ScansFail.

(** [.from('scans').select('*').eq('user_id', userId)], then the mapper on
    every row.  The [.order('created_at')] sorts by a column the model's
    rows do not carry; the rows are taken in table order. *)
Definition getScans (authHeader : option string) (rows : list scan_row) : scans_answer :=
  let userId := getUserIdFromAuth authHeader in
  match map_opt map_scan_list (filter (fun r => String.eqb (scan_user_id r) userId) rows) with
  | Some l => ScansOk l
  | None => ScansFail
  end.

(* ========================================================================== *)
(** * Sample inputs *)

(** A JSON string literal: [s] between double quotes. *)
Definition quoted (s : string) : string := String dq (s ++ String dq EmptyString).

(** The path multer gives an upload. *)
Definition sample_image : string := "uploads/image-1700000000000.jpg".

Definition all_artifacts : fs_state :=
  [sample_image; modelPath; bumblefootModelPath; sequentialScriptPath].

(** Standard output of a successful analysis that found bumblefoot. *)
Definition bumblefoot_json : string :=
  "{" ++ quoted "success" ++ ": true, " ++ quoted "health_assessment" ++ ": "
  ++ quoted "bumblefoot" ++ "}".
Definition bumblefoot_result : jsval :=
  JObj [("success", JBool true); ("health_assessment", JStr "bumblefoot")].
Definition bumblefoot_stdout : string :=
  "Running stage 1" ++ String (ascii_of_nat 10) EmptyString ++ bumblefoot_json.

(** Standard output: a JSON object followed by a log line that holds braces. *)
Definition json_object_text : string := "{" ++ quoted "success" ++ ": true}".
Definition braces_after_stdout : string :=
  json_object_text ++ String (ascii_of_nat 10) EmptyString ++ "Done {ok}".

(* ========================================================================== *)
(** * Lemmas on the filesystem and the pre-spawn checks *)

Lemma existsSync_In (p : string) (fs : fs_state) :
  existsSync p fs = true <-> In p fs.
Proof.
  unfold existsSync. rewrite existsb_exists. split.
  - intros [x [Hin Heq]]. apply String.eqb_eq in Heq. subst. exact Hin.
  - intros H. exists p. split; [exact H | apply String.eqb_refl].
Qed.

Lemma unlinkSync_present (p : string) (fs : fs_state) :
  In p fs -> unlinkSync p fs = Some (filter (fun q => negb (String.eqb q p)) fs).
Proof.
  intros H. unfold unlinkSync. apply existsSync_In in H. rewrite H. reflexivity.
Qed.

Lemma unlinked_gone (p : string) (fs : fs_state) :
  ~ In p (filter (fun q => negb (String.eqb q p)) fs).
Proof.
  rewrite filter_In. intros [_ H]. rewrite String.eqb_refl in H. discriminate.
Qed.

Lemma detect_checks_all_present (fs : fs_state) :
  existsSync modelPath fs = true -> existsSync bumblefootModelPath fs = true ->
  existsSync sequentialScriptPath fs = true -> detect_checks fs = None.
Proof.
  intros H1 H2 H3. unfold detect_checks. rewrite H1, H2, H3. reflexivity.
Qed.

(** On a successful spawn, the upload is unlinked once and the answer is the
    one of the [close] listener. *)
Lemma detect_spawn_path (p : string) (fs : fs_state) (pr : proc_result) :
  spawn_failed pr = false -> In p fs -> detect_checks fs = None ->
  detect (Some p) fs pr =
  mk_outcome (filter (fun q => negb (String.eqb q p)) fs)
             (Some (close_response (exit_code pr) (stdout pr) (stderr pr)))
             [("python", [sequentialScriptPath; p; modelPath; bumblefootModelPath])]
             [p].
Proof.
  intros Hs Hin Hc. unfold detect. rewrite Hc, Hs, (unlinkSync_present _ _ Hin). reflexivity.
Qed.

(* ========================================================================== *)
(** * Claims on POST /api/pose/detect *)

(** C1 (as stated, refuted): with the pose model present and the bumblefoot
    model absent, the handler does not answer with the canned payload. *)
Lemma C1_counterexample :
  ~ (forall (p : string) (fs : fs_state) (pr : proc_result),
       In p fs ->
       existsSync modelPath fs = false \/ existsSync bumblefootModelPath fs = false ->
       out_resp (detect (Some p) fs pr) = Some (mk_resp 200 mock_payload) /\
       spawned (detect (Some p) fs pr) = []).
Proof.
  intros H.
  destruct (H sample_image [sample_image; modelPath; sequentialScriptPath]
              (mk_proc (Some 0%Z) EmptyString EmptyString))
    as [Hr _]; [simpl; auto | right; reflexivity |].
  vm_compute in Hr. discriminate.
Qed.

(** C1 (amended): when the pose model is absent, the handler answers with
    the canned success payload and spawns nothing, whatever the image; when
    only the bumblefoot model is absent it answers 500 with
    "Bumblefoot classification model not found" and spawns nothing. *)
Theorem C1_degraded_mode (p : string) (fs : fs_state) (pr : proc_result) :
  (existsSync modelPath fs = false ->
     detect (Some p) fs pr = mk_outcome fs (Some (mk_resp 200 mock_payload)) [] []) /\
  (existsSync modelPath fs = true -> existsSync bumblefootModelPath fs = false ->
     detect (Some p) fs pr =
     mk_outcome fs (Some (mk_resp 500 (failure "Bumblefoot classification model not found")))
                [] []).
Proof.
  split.
  - intros H. unfold detect, detect_checks. rewrite H. reflexivity.
  - intros H1 H2. unfold detect, detect_checks. rewrite H1, H2. reflexivity.
Qed.

Lemma C1_degraded_mode_witness :
  existsSync modelPath [sample_image] = false /\
  detect (Some sample_image) [sample_image] (mk_proc (Some 0%Z) EmptyString EmptyString) =
  mk_outcome [sample_image] (Some (mk_resp 200 mock_payload)) [] [].
Proof.
  split; [vm_compute; reflexivity |].
  apply (proj1 (C1_degraded_mode sample_image [sample_image]
                  (mk_proc (Some 0%Z) EmptyString EmptyString))).
  vm_compute. reflexivity.
Defined.

(** C2 (code defect): in degraded mode the handler returns before any
    unlink, so the stored upload is still on disk after the response. *)
Theorem C2_mock_mode_keeps_upload :
  let o := detect (Some sample_image) [sample_image]
                  (mk_proc (Some 0%Z) EmptyString EmptyString) in
  out_resp o = Some (mk_resp 200 mock_payload) /\
  In sample_image (out_fs o) /\ unlinked o = [].
Proof.
  vm_compute. split; [reflexivity | split; [left; reflexivity | reflexivity]].
Qed.

(** C3 (as stated, refuted): an analysis that reports "bumblefoot", which is
    not "healthy", gets the legacy risk level "low". *)
Lemma C3_counterexample :
  let r := close_response (Some 0%Z) bumblefoot_stdout EmptyString in
  status r = 200%Z /\
  get (get (body r) "combined_analysis") "health_assessment" = JStr "bumblefoot" /\
  get (get (body r) "injury_analysis") "risk_level" = JStr "low".
Proof.
  vm_compute. split; [reflexivity | split; reflexivity].
Qed.

(** C3 (amended): when the parsed result's [success] is truthy, the response
    carries the parsed health assessment, and the legacy risk level is
    "high" exactly when that assessment is "injured", "low" otherwise. *)
Theorem C3_risk_level (output m err : string) (result ok : jsval) :
  match_json output = Some m -> JSON_parse m = Some result ->
  get_strict result "success" = Some ok -> truthy ok = true ->
  exists b, close_response (Some 0%Z) output err = mk_resp 200 b /\
    get (get b "combined_analysis") "health_assessment" = get result "health_assessment" /\
    get (get b "injury_analysis") "risk_level" =
      JStr (if is_str (get result "health_assessment") "injured" then "high" else "low").
Proof.
  intros Hm Hp Hs Ht. unfold close_response. rewrite Hm, Hp, Hs, Ht.
  eexists. split; [reflexivity |]. split; reflexivity.
Qed.

Lemma C3_risk_level_witness :
  match_json bumblefoot_stdout = Some bumblefoot_json /\
  JSON_parse bumblefoot_json = Some bumblefoot_result /\
  exists b, close_response (Some 0%Z) bumblefoot_stdout EmptyString = mk_resp 200 b /\
    get (get b "combined_analysis") "health_assessment" = JStr "bumblefoot" /\
    get (get b "injury_analysis") "risk_level" = JStr "low".
Proof.
  split; [vm_compute; reflexivity |]. split; [vm_compute; reflexivity |].
  apply (C3_risk_level bumblefoot_stdout bumblefoot_json EmptyString
           bumblefoot_result (JBool true)); vm_compute; reflexivity.
Defined.

(** The output holds a ['{'] with a ['}'] somewhere after it. *)
Definition has_brace_pair (s : string) : Prop :=
  exists a b c, s = a ++ String "{"%char (b ++ String "}"%char c).

Lemma from_open_brace_split (s t : string) :
  from_open_brace s = Some t -> exists a r, s = a ++ t /\ t = String "{"%char r.
Proof.
  revert t. induction s as [| c s IH]; intros t H; simpl in H; [discriminate |].
  destruct (Ascii.eqb c "{"%char) eqn:E.
  - injection H as <-. apply Ascii.eqb_eq in E. subst c.
    exists EmptyString, s. split; reflexivity.
  - destruct (IH t H) as [a [r [-> Ht]]]. exists (String c a), r. split; [reflexivity | exact Ht].
Qed.

Lemma upto_last_close_split (r p : string) :
  upto_last_close r = Some p -> exists b c, r = b ++ String "}"%char c.
Proof.
  revert p. induction r as [| x r IH]; intros p H; simpl in H; [discriminate |].
  destruct (upto_last_close r) as [p' |] eqn:E.
  - destruct (IH p' eq_refl) as [b [c ->]]. exists (String x b), c. reflexivity.
  - destruct (Ascii.eqb x "}"%char) eqn:Ex; [| discriminate].
    apply Ascii.eqb_eq in Ex. subst x. exists EmptyString, r. reflexivity.
Qed.

(** A match of [/\{.*\}/s] needs a brace pair. *)
Lemma match_json_brace_pair (s m : string) :
  match_json s = Some m -> has_brace_pair s.
Proof.
  unfold match_json. destruct (from_open_brace s) as [t |] eqn:E; [| discriminate].
  destruct (from_open_brace_split _ _ E) as [a [r [Hs Ht]]]. subst t.
  destruct (upto_last_close r) as [p |] eqn:Ep; [| discriminate]. intros _.
  destruct (upto_last_close_split _ _ Ep) as [b [c Hr]].
  exists a, b, c. rewrite Hs, Hr. reflexivity.
Qed.

Lemma from_open_brace_none (s : string) :
  from_open_brace s = None -> ~ has_brace_pair s.
Proof.
  intros H [a [b [c Hs]]]. subst s. induction a as [| x a IH]; simpl in H.
  - discriminate.
  - destruct (Ascii.eqb x "{"%char); [discriminate | exact (IH H)].
Qed.

(** C5 (code defect): the JSON object alone parses, but when the log text
    after it holds a ['}'] the greedy match runs to that brace, the extract
    does not parse, and the handler answers with a parse failure. *)
Theorem C5_braces_after_json :
  JSON_parse json_object_text = Some (JObj [("success", JBool true)]) /\
  match_json braces_after_stdout = Some braces_after_stdout /\
  json_parse_raw braces_after_stdout = PErr /\
  close_response (Some 0%Z) braces_after_stdout EmptyString =
    parse_failure syntax_error_message braces_after_stdout.
Proof.
  vm_compute. repeat split.
Qed.

(** Two uploads sent in the same millisecond with the same extension are
    stored by multer at the same path ([image-<Date.now()><ext>]), here
    [sample_image]. Both requests pass the pre-spawn checks and start their
    process while the file is on disk; the first process to exit is
    answered by the run below, whose [close] listener removes the shared
    file. *)
Definition first_upload_run : outcome :=
  detect (Some sample_image) all_artifacts
         (mk_proc (Some 0%Z) bumblefoot_stdout EmptyString).

(** C6 (code defect): the second of two uploads sharing a path, whose process
    exits with status 1, gets no [success:false] response at all: its
    [close] listener calls [unlinkSync] on the file the first request has
    already removed, which throws outside the [try]. The pre-spawn checks
    read only the model and script files, which the first run leaves in
    place, so the second run sees the same checks. *)
Theorem C6_shared_upload_path :
  let fsA := out_fs first_upload_run in
  let prB := mk_proc (Some 1%Z) EmptyString "ModuleNotFoundError" in
  let runB := detect (Some sample_image) fsA prB in
  In sample_image all_artifacts /\
  (exists r, out_resp first_upload_run = Some r /\ status r = 200%Z) /\
  ~ In sample_image fsA /\
  detect_checks fsA = None /\ detect_checks all_artifacts = None /\
  exit_code prB = Some 1%Z /\
  spawned runB = [("python", [sequentialScriptPath; sample_image; modelPath;
                              bumblefootModelPath])] /\
  unlinked runB = [sample_image] /\
  out_resp runB = None.
Proof.
  cbv zeta. split; [simpl; auto |]. split.
  - eexists. split; [vm_compute; reflexivity | reflexivity].
  - split; [vm_compute; intuition discriminate |].
    vm_compute. repeat split.
Qed.

(** C7 (code defect): the second of two uploads sharing a path, whose process
    exits with status 0 and prints no brace pair, gets no "No JSON found in
    output" response: its [close] listener throws on the [unlinkSync] of the
    file the first request has already removed. *)
Theorem C7_shared_upload_path :
  let fsA := out_fs first_upload_run in
  let prB := mk_proc (Some 0%Z) "Traceback: model load warning" EmptyString in
  let runB := detect (Some sample_image) fsA prB in
  ~ In sample_image fsA /\
  detect_checks fsA = None /\
  exit_code prB = Some 0%Z /\ ~ has_brace_pair (stdout prB) /\
  spawned runB = [("python", [sequentialScriptPath; sample_image; modelPath;
                              bumblefootModelPath])] /\
  out_resp runB = None.
Proof.
  cbv zeta. split; [vm_compute; intuition discriminate |].
  split; [vm_compute; reflexivity |]. split; [reflexivity |].
  split; [apply from_open_brace_none; vm_compute; reflexivity |].
  vm_compute. split; reflexivity.
Qed.

(* ========================================================================== *)
(** * Claims on the scan mappers *)

(** Some entry of the array has [severity === 'severe']. *)
Definition has_severe (l : list jsval) : Prop :=
  exists x, In x l /\ is_str (get x "severity") "severe" = true.

Lemma get_strict_some (v : jsval) (k : string) (s : jsval) :
  get_strict v k = Some s -> s = get v k.
Proof. destruct v; simpl; intros H; try discriminate; injection H as <-; reflexivity. Qed.

Lemma some_severe_true (l : list jsval) : some_severe l = Some true -> has_severe l.
Proof.
  induction l as [| x r IH]; simpl; intros H; [discriminate |].
  destruct (get_strict x "severity") as [s |] eqn:E; [| discriminate].
  apply get_strict_some in E. subst s.
  destruct (is_str (get x "severity") "severe") eqn:Es.
  - exists x. split; [left; reflexivity | exact Es].
  - destruct (IH H) as [y [Hy Hs]]. exists y. split; [right; exact Hy | exact Hs].
Qed.

Lemma some_severe_false (l : list jsval) : some_severe l = Some false -> ~ has_severe l.
Proof.
  induction l as [| x r IH]; simpl; intros H.
  - intros [y [[] _]].
  - destruct (get_strict x "severity") as [s |] eqn:E; [| discriminate].
    apply get_strict_some in E. subst s.
    destruct (is_str (get x "severity") "severe") eqn:Es; [discriminate |].
    intros [y [[<- | Hy] Hs]]; [congruence | apply (IH H); exists y; split; assumption].
Qed.

Lemma conf_gt_spec (c : option Q) (t : Q) :
  conf_gt c t = true <-> t < match c with Some q => q | None => 0 end.
Proof.
  unfold conf_gt. destruct (Qle_bool _ t) eqn:E; simpl.
  - apply Qle_bool_iff in E. split; [discriminate | intros H; exfalso].
    exact (Qlt_not_le _ _ H E).
  - split; [intros _ | reflexivity].
    apply Qnot_le_lt. intros H. apply Qle_bool_iff in H. congruence.
Qed.

Definition severe_scan : scan_row :=
  mk_scan "scan-1" placeholder_user
          (JArr [JObj [("type", JStr "bumblefoot"); ("severity", JStr "severe")]])
          (Some (3 # 10)).

(** C4 (code defect): the three mappers, which carry the same legacy
    [severity] field, disagree on one row: for a scan whose only injury
    entry is severe, with analysis confidence 0.3, the getScans mapper gives
    "high" while the getScanById and createScan mappers give "low". *)
Theorem C4_sibling_mappers_disagree :
  has_severe (match injury_detections severe_scan with JArr l => l | _ => [] end) /\
  option_map m_severity (map_scan_list severe_scan) = Some "high" /\
  option_map m_severity (getScanById_mapper severe_scan) = Some "low" /\
  option_map m_severity (createScan_mapper severe_scan) = Some "low".
Proof.
  split; [| split; [| split]; vm_compute; reflexivity].
  eexists. split; [left; reflexivity | reflexivity].
Qed.

(** The getScans mapper gives "high" for a non-empty injury
    array with a severe entry, "medium" for a non-empty one without, "low"
    otherwise; the getScanById and createScan mappers give "high" above
    0.8 analysis confidence, "medium" above 0.5, "low" otherwise (null
    counting as 0), whatever the injury entries. *)
Theorem scan_severity_rules :
  (forall (scan : scan_row) (m : mapped_scan), map_scan_list scan = Some m ->
     match injury_detections scan with
     | JArr ((_ :: _) as l) =>
         (m_severity m = "high" /\ has_severe l) \/
         (m_severity m = "medium" /\ ~ has_severe l)
     | _ => m_severity m = "low"
     end) /\
  (forall (scan : scan_row) (m : mapped_scan),
     getScanById_mapper scan = Some m \/ createScan_mapper scan = Some m ->
     let x := match analysis_confidence scan with Some q => q | None => 0 end in
     ((8 # 10) < x -> m_severity m = "high") /\
     (x <= 8 # 10 -> (5 # 10) < x -> m_severity m = "medium") /\
     (x <= 5 # 10 -> m_severity m = "low")).
Proof.
  split.
  - intros scan m H. unfold map_scan_list in H.
    destruct (injuries_of (injury_detections scan)) as [inj |]; [| discriminate].
    destruct (severity_from_injuries (injury_detections scan)) as [sev |] eqn:Es;
      [| discriminate].
    injection H as <-. simpl.
    unfold severity_from_injuries in Es.
    destruct (injury_detections scan) as [| | b | q | s | l | fs];
      try (injection Es as <-; reflexivity).
    destruct l as [| y ys]; [injection Es as <-; reflexivity |].
    cbn beta iota in Es.
    destruct (some_severe (y :: ys)) as [[|] |] eqn:Eb; simpl in Es;
      [injection Es as <- | injection Es as <- | discriminate].
    + left. split; [reflexivity | apply some_severe_true; exact Eb].
    + right. split; [reflexivity | apply some_severe_false; exact Eb].
  - intros scan m H.
    assert (Hm : m_severity m = severity_from_confidence (analysis_confidence scan)).
    { unfold getScanById_mapper, createScan_mapper, map_scan_single in H.
      destruct (injuries_of (injury_detections scan)); [| destruct H; discriminate].
      destruct H as [H | H]; injection H as <-; reflexivity. }
    rewrite Hm. unfold severity_from_confidence. cbv zeta.
    pose proof (conf_gt_spec (analysis_confidence scan) (8 # 10)) as H8.
    pose proof (conf_gt_spec (analysis_confidence scan) (5 # 10)) as H5.
    set (x := match analysis_confidence scan with Some q => q | None => 0 end) in *.
    split; [| split].
    + intros Hlt. apply H8 in Hlt. rewrite Hlt. reflexivity.
    + intros Hle Hlt. destruct (conf_gt _ (8 # 10)) eqn:E8.
      * exfalso. apply conf_gt_spec in E8. exact (Qlt_not_le _ _ E8 Hle).
      * apply H5 in Hlt. rewrite Hlt. reflexivity.
    + intros Hle. destruct (conf_gt _ (8 # 10)) eqn:E8.
      * exfalso. apply conf_gt_spec in E8. apply (Qlt_not_le _ _ E8).
        apply (Qle_trans _ _ _ Hle). unfold Qle. simpl. lia.
      * destruct (conf_gt _ (5 # 10)) eqn:E5; [| reflexivity].
        exfalso. apply conf_gt_spec in E5. exact (Qlt_not_le _ _ E5 Hle).
Qed.

Lemma scan_severity_rules_witness :
  (map_scan_list severe_scan = Some (mk_mapped "scan-1" placeholder_user
      (injury_detections severe_scan) (Some (3 # 10)) [JStr "bumblefoot"] "high") /\
   ((m_severity (mk_mapped "scan-1" placeholder_user
      (injury_detections severe_scan) (Some (3 # 10)) [JStr "bumblefoot"] "high") = "high"
     /\ has_severe [JObj [("type", JStr "bumblefoot"); ("severity", JStr "severe")]]) \/
    (m_severity (mk_mapped "scan-1" placeholder_user
      (injury_detections severe_scan) (Some (3 # 10)) [JStr "bumblefoot"] "high") = "medium"
     /\ ~ has_severe [JObj [("type", JStr "bumblefoot"); ("severity", JStr "severe")]]))) /\
  (getScanById_mapper severe_scan = Some (mk_mapped "scan-1" placeholder_user
      (injury_detections severe_scan) (Some (3 # 10)) [JStr "bumblefoot"] "low") /\
   ((3 # 10) <= 5 # 10 -> m_severity (mk_mapped "scan-1" placeholder_user
      (injury_detections severe_scan) (Some (3 # 10)) [JStr "bumblefoot"] "low") = "low")).
Proof.
  assert (H1 : map_scan_list severe_scan = Some (mk_mapped "scan-1" placeholder_user
      (injury_detections severe_scan) (Some (3 # 10)) [JStr "bumblefoot"] "high")).
  { vm_compute. reflexivity. }
  assert (H2 : getScanById_mapper severe_scan = Some (mk_mapped "scan-1" placeholder_user
      (injury_detections severe_scan) (Some (3 # 10)) [JStr "bumblefoot"] "low")).
  { vm_compute. reflexivity. }
  split.
  - split; [exact H1 |]. exact (proj1 scan_severity_rules severe_scan _ H1).
  - split; [exact H2 |].
    exact (proj2 (proj2 (proj2 scan_severity_rules severe_scan _ (or_introl H2)))).
Defined.

(* ========================================================================== *)
(** * Claims on POST /api/reports and the resolved identity *)

Definition other_user : string := "00000000-0000-0000-0000-000000000002".

Definition other_users_scan : scan_row :=
  mk_scan "scan-of-other-user" other_user (JArr []) (Some (9 # 10)).

(** A verifier that accepts one token, whose subject is another user. *)
Definition sample_verify (token : string) : option jsval :=
  if String.eqb token "tok-42" then Some (JObj [("sub", JStr other_user)]) else None.

Definition blank_title_request : create_report_request :=
  mk_req (Some "scan-of-other-user") (Some "rooster-1") (Some "   ")
         None None None JUndef JUndef JUndef None.

Definition report_request (sid : string) : create_report_request :=
  mk_req (Some sid) (Some "rooster-1") (Some "Weekly check")
         None None None JUndef JUndef JUndef None.

Lemma select_scan_none (rows : list scan_row) (sid uid : string) :
  (forall r, In r rows -> scan_id r = sid -> scan_user_id r <> uid) ->
  select_scan rows sid uid = None.
Proof.
  intros H. unfold select_scan.
  destruct (filter _ rows) as [| r rest] eqn:E; [reflexivity |].
  assert (Hr : In r (filter (fun r => String.eqb (scan_id r) sid &&
                                      String.eqb (scan_user_id r) uid) rows)).
  { rewrite E. left. reflexivity. }
  apply filter_In in Hr. destruct Hr as [Hin Hb].
  apply andb_prop in Hb. destruct Hb as [H1 H2].
  apply String.eqb_eq in H1, H2. exfalso. exact (H r Hin H1 H2).
Qed.

Lemma select_scan_not_one (rows : list scan_row) (sid uid : string) :
  owned_matches rows sid uid <> 1%nat -> select_scan rows sid uid = None.
Proof.
  unfold owned_matches, select_scan.
  destruct (filter _ rows) as [| r [| r' rest]]; simpl; intros H;
    [reflexivity | exfalso; apply H; reflexivity | reflexivity].
Qed.

(** C8 (as stated, refuted): a request, past the token check, for another
    user's scan with a blank title is answered 400, not 404. *)
Lemma C8_counterexample :
  scan_user_id other_users_scan <> getUserIdFromAuth (Some "Bearer tok-42") /\
  status (fst (postReport sample_verify (Some "Bearer tok-42") blank_title_request
                 (mk_db [other_users_scan] []) true)) = 400%Z.
Proof.
  split; [vm_compute; discriminate | vm_compute; reflexivity].
Qed.

(** C8 (amended): on POST /api/reports, a request that requireAuth rejects
    is answered 401 with [success:false]; past it, a request that fails
    the required-field check is answered 400; past both, a request whose
    scanId does not identify exactly one scan of the resolved user is
    answered 404 with the fixed error object. None of them writes. *)
Theorem C8_report_route (jwt_verify : string -> option jsval) (auth : option string)
    (req : create_report_request) (d : db) (ok : bool) :
  (forall r, requireAuth jwt_verify auth = AuthReject r ->
     postReport jwt_verify auth req d ok = (r, d) /\ status r = 401%Z /\
     get (body r) "success" = JBool false) /\
  (forall u, requireAuth jwt_verify auth = AuthPass u ->
     (report_fields_ok req = false -> postReport jwt_verify auth req d ok = (bad_request, d)) /\
     (forall sid, req_scanId req = Some sid -> report_fields_ok req = true ->
        owned_matches (scans d) sid (getUserIdFromAuth auth) <> 1%nat ->
        postReport jwt_verify auth req d ok =
        (mk_resp 404 (api_error "Scan not found or access denied"), d))).
Proof.
  split.
  - intros r Hr. unfold postReport. rewrite Hr. split; [reflexivity |].
    unfold requireAuth in Hr. destruct auth as [h |];
      [| injection Hr as <-; split; reflexivity].
    destruct (startsWith h "Bearer ");
      [destruct (jwt_verify _); [discriminate Hr |] |];
      injection Hr as <-; split; reflexivity.
  - intros u Hu. unfold postReport. rewrite Hu. split.
    + unfold report_fields_ok, createReport. intros H.
      destruct (req_scanId req), (req_roosterId req), (req_title req); try reflexivity.
      destruct (_ || _ || _); [reflexivity | discriminate H].
    + intros sid Hs Hok Hn. unfold report_fields_ok in Hok. unfold createReport.
      rewrite Hs in Hok |- *.
      destruct (req_roosterId req), (req_title req); try discriminate Hok.
      destruct (_ || _ || _); [discriminate Hok |].
      rewrite (select_scan_not_one _ _ _ Hn). reflexivity.
Qed.

Lemma C8_report_route_witness :
  (exists r, postReport sample_verify None (report_request "scan-of-other-user")
               (mk_db [other_users_scan] []) true = (r, mk_db [other_users_scan] []) /\
             status r = 401%Z) /\
  postReport sample_verify (Some "Bearer tok-42") blank_title_request
    (mk_db [other_users_scan] []) true = (bad_request, mk_db [other_users_scan] []) /\
  postReport sample_verify (Some "Bearer tok-42") (report_request "scan-of-other-user")
    (mk_db [other_users_scan] []) true =
  (mk_resp 404 (api_error "Scan not found or access denied"), mk_db [other_users_scan] []).
Proof.
  split; [| split].
  - destruct (requireAuth sample_verify None) as [r | u] eqn:E;
      [| vm_compute in E; discriminate E].
    exists r. destruct (proj1 (C8_report_route sample_verify None
                                 (report_request "scan-of-other-user")
                                 (mk_db [other_users_scan] []) true) r E) as [H1 [H2 _]].
    split; [exact H1 | exact H2].
  - destruct (requireAuth sample_verify (Some "Bearer tok-42")) as [r | u] eqn:E;
      [vm_compute in E; discriminate E |].
    apply (proj1 (proj2 (C8_report_route sample_verify (Some "Bearer tok-42")
                           blank_title_request (mk_db [other_users_scan] []) true) u E)).
    vm_compute. reflexivity.
  - destruct (requireAuth sample_verify (Some "Bearer tok-42")) as [r | u] eqn:E;
      [vm_compute in E; discriminate E |].
    apply (proj2 (proj2 (C8_report_route sample_verify (Some "Bearer tok-42")
                           (report_request "scan-of-other-user")
                           (mk_db [other_users_scan] []) true) u E) "scan-of-other-user");
      [reflexivity | vm_compute; reflexivity | vm_compute; discriminate].
Defined.

(** The number of entries with [severity === 'severe']. *)
Definition severe_count (l : list jsval) : nat :=
  length (filter (fun x => is_str (get x "severity") "severe") l).

Lemma count_severe_spec (l : list jsval) (n : nat) :
  count_severe l = Some n -> n = severe_count l.
Proof.
  revert n. induction l as [| x r IH]; intros n H; simpl in H.
  - injection H as <-. reflexivity.
  - destruct (get_strict x "severity") as [s |] eqn:E; [| discriminate].
    destruct (count_severe r) as [k |]; [| discriminate].
    apply get_strict_some in E. subst s. injection H as <-.
    unfold severe_count. simpl.
    destruct (is_str (get x "severity") "severe"); simpl; f_equal; apply IH; reflexivity.
Qed.

(** Every call keeps the reports already stored and only appends. *)
Lemma createReport_appends (auth : option string) (body : create_report_request)
    (d d' : db) (ok : bool) (resp : response) :
  createReport auth body d ok = (resp, d') ->
  exists rest, health_reports d' = (health_reports d ++ rest)%list.
Proof.
  unfold createReport. intros H.
  destruct (req_scanId body), (req_roosterId body), (req_title body);
    try (injection H as _ <-; exists []; symmetry; apply app_nil_r).
  destruct (_ || _); [injection H as _ <-; exists []; symmetry; apply app_nil_r |].
  destruct (select_scan _ _ _); [| injection H as _ <-; exists []; symmetry; apply app_nil_r].
  destruct (injury_counts _) as [[total high] |];
    [| injection H as _ <-; exists []; symmetry; apply app_nil_r].
  destruct ok; injection H as _ <-; [eexists; reflexivity | exists []; symmetry; apply app_nil_r].
Qed.

(** C9: a report answered 201 was built from the one scan row of the user
    selected by its scanId: it is appended to the reports, its
    total_injuries_detected is the length of that row's injury array and
    its high_priority_injuries the number of entries with severity
    "severe"; later requests keep the stored row as it is. *)
Theorem C9_injury_counts (auth : option string) (body : create_report_request)
    (d d' : db) (ok : bool) (resp : response) :
  createReport auth body d ok = (resp, d') -> status resp = 201%Z ->
  exists sid scan row,
    req_scanId body = Some sid /\
    select_scan (scans d) sid (getUserIdFromAuth auth) = Some scan /\
    health_reports d' = (health_reports d ++ [row])%list /\
    (forall l, injury_detections scan = JArr l ->
       rep_total_injuries_detected row = length l /\
       rep_high_priority_injuries row = severe_count l) /\
    (forall auth2 body2 ok2 resp2 d'',
       createReport auth2 body2 d' ok2 = (resp2, d'') ->
       exists rest, health_reports d'' = (health_reports d ++ [row] ++ rest)%list).
Proof.
  intros H Hst. unfold createReport in H.
  destruct (req_scanId body) as [sid |] eqn:Es;
    [| injection H as <- _; discriminate Hst].
  destruct (req_roosterId body) as [rid |];
    [| injection H as <- _; discriminate Hst].
  destruct (req_title body) as [title |];
    [| injection H as <- _; discriminate Hst].
  destruct (_ || _); [injection H as <- _; discriminate Hst |].
  destruct (select_scan _ _ _) as [scan |] eqn:Esel;
    [| injection H as <- _; discriminate Hst].
  destruct (injury_counts (injury_detections scan)) as [[total high] |] eqn:Ec;
    [| injection H as <- _; discriminate Hst].
  destruct ok; [| injection H as <- _; discriminate Hst].
  injection H as <- <-. cbn [health_reports].
  eexists sid, scan, _. split; [reflexivity |]. split; [exact Esel |].
  split; [reflexivity |]. split.
  - intros l Hl. rewrite Hl in Ec. unfold injury_counts in Ec. simpl in Ec.
    destruct (count_severe l) as [n |] eqn:En; [| discriminate].
    injection Ec as <- <-. split; [reflexivity | apply count_severe_spec; exact En].
  - intros auth2 body2 ok2 resp2 d'' H2.
    destruct (createReport_appends _ _ _ _ _ _ H2) as [rest Hrest].
    exists rest. rewrite Hrest. cbn [health_reports]. rewrite <- app_assoc. reflexivity.
Qed.

Definition owned_scan : scan_row :=
  mk_scan "scan-7" placeholder_user
          (JArr [JObj [("type", JStr "bumblefoot"); ("severity", JStr "severe")];
                 JObj [("type", JStr "classification_result"); ("confidence", JNum (9 # 10))]])
          (Some (9 # 10)).

Lemma C9_injury_counts_witness :
  status (fst (createReport None (report_request "scan-7") (mk_db [owned_scan] []) true))
    = 201%Z /\
  exists sid scan row,
    req_scanId (report_request "scan-7") = Some sid /\
    select_scan (scans (mk_db [owned_scan] [])) sid (getUserIdFromAuth None) = Some scan /\
    health_reports (snd (createReport None (report_request "scan-7")
                          (mk_db [owned_scan] []) true)) = ([] ++ [row])%list /\
    (forall l, injury_detections scan = JArr l ->
       rep_total_injuries_detected row = length l /\
       rep_high_priority_injuries row = severe_count l) /\
    (forall auth2 body2 ok2 resp2 d'',
       createReport auth2 body2 (snd (createReport None (report_request "scan-7")
                                        (mk_db [owned_scan] []) true)) ok2 = (resp2, d'') ->
       exists rest, health_reports d'' = ([] ++ [row] ++ rest)%list).
Proof.
  split; [vm_compute; reflexivity |].
  apply (C9_injury_counts None (report_request "scan-7") (mk_db [owned_scan] [])
           (snd (createReport None (report_request "scan-7") (mk_db [owned_scan] []) true))
           true
           (fst (createReport None (report_request "scan-7") (mk_db [owned_scan] []) true)));
    [reflexivity | vm_compute; reflexivity].
Defined.

(** C10: the resolved identity is the fixed placeholder for every header,
    absent, malformed or bearer, and so the report handler answers two
    requests that differ only in their header alike. *)
Theorem C10_constant_identity :
  (forall h : option string, getUserIdFromAuth h = placeholder_user) /\
  (forall (h1 h2 : option string) (body : create_report_request) (d : db) (ok : bool),
     createReport h1 body d ok = createReport h2 body d ok).
Proof.
  assert (Hc : forall h, getUserIdFromAuth h = placeholder_user).
  { intros [h |]; [| reflexivity]. unfold getUserIdFromAuth.
    destruct (_ || _); reflexivity. }
  split; [exact Hc |].
  intros h1 h2 body d ok. unfold createReport. rewrite (Hc h1), (Hc h2). reflexivity.
Qed.

(* ========================================================================== *)
(** * Further properties of POST /api/pose/detect *)

(** When the process was started, the upload is still on disk at its exit
    and exits with a non-zero (or null) status, the response is a 500 with
    [success:false] whose error carries the captured standard error, and
    the upload is no longer on disk. *)
Theorem detect_nonzero_exit (p : string) (fs : fs_state) (pr : proc_result) :
  spawn_failed pr = false -> In p fs ->
  existsSync modelPath fs = true -> existsSync bumblefootModelPath fs = true ->
  existsSync sequentialScriptPath fs = true ->
  exit_code pr <> Some 0%Z ->
  let o := detect (Some p) fs pr in
  exists r, out_resp o = Some r /\ status r = 500%Z /\
    get (body r) "success" = JBool false /\
    get (body r) "error" = JStr ("Pose detection failed: " ++ stderr pr) /\
    ~ In p (out_fs o).
Proof.
  intros Hs Hin H1 H2 H3 Hc. cbv zeta.
  rewrite (detect_spawn_path _ _ _ Hs Hin (detect_checks_all_present _ H1 H2 H3)).
  assert (Hr : close_response (exit_code pr) (stdout pr) (stderr pr) =
               mk_resp 500 (failure ("Pose detection failed: " ++ stderr pr))).
  { unfold close_response. destruct (exit_code pr) as [[| z | z] |];
      try reflexivity. exfalso. apply Hc. reflexivity. }
  rewrite Hr. cbn [out_resp out_fs].
  exists (mk_resp 500 (failure ("Pose detection failed: " ++ stderr pr))).
  split; [reflexivity |]. split; [reflexivity |]. split; [reflexivity |].
  split; [reflexivity | apply unlinked_gone].
Qed.

Lemma detect_nonzero_exit_witness :
  exists r, out_resp (detect (Some sample_image) all_artifacts
                        (mk_proc (Some 1%Z) EmptyString "ModuleNotFoundError")) = Some r /\
    status r = 500%Z /\ get (body r) "success" = JBool false /\
    get (body r) "error" = JStr ("Pose detection failed: " ++ "ModuleNotFoundError") /\
    ~ In sample_image (out_fs (detect (Some sample_image) all_artifacts
                        (mk_proc (Some 1%Z) EmptyString "ModuleNotFoundError"))).
Proof.
  apply (detect_nonzero_exit sample_image all_artifacts
           (mk_proc (Some 1%Z) EmptyString "ModuleNotFoundError"));
    [reflexivity | simpl; auto | vm_compute; reflexivity | vm_compute; reflexivity
    | vm_compute; reflexivity | discriminate].
Defined.

(** When the process was started, the upload is still on disk at its exit
    and exits with status 0 with no brace pair in the output, the response
    is a 500 with [success:false] and the "No JSON found in output" error
    followed by the raw output; the upload is removed. *)
Theorem detect_no_json (p : string) (fs : fs_state) (pr : proc_result) :
  spawn_failed pr = false -> In p fs ->
  existsSync modelPath fs = true -> existsSync bumblefootModelPath fs = true ->
  existsSync sequentialScriptPath fs = true ->
  exit_code pr = Some 0%Z -> ~ has_brace_pair (stdout pr) ->
  let o := detect (Some p) fs pr in
  out_resp o = Some (mk_resp 500 (failure
      ("Failed to parse sequential analysis results: " ++ "No JSON found in output"
       ++ ". Output: " ++ stdout pr))) /\
  ~ In p (out_fs o).
Proof.
  intros Hs Hin H1 H2 H3 Hc Hn. cbv zeta.
  rewrite (detect_spawn_path _ _ _ Hs Hin (detect_checks_all_present _ H1 H2 H3)).
  cbn [out_resp out_fs]. split; [| apply unlinked_gone].
  unfold close_response. rewrite Hc.
  destruct (match_json (stdout pr)) as [m |] eqn:Em.
  - exfalso. exact (Hn (match_json_brace_pair _ _ Em)).
  - reflexivity.
Qed.

Lemma detect_no_json_witness :
  ~ has_brace_pair "Traceback: model load warning" /\
  out_resp (detect (Some sample_image) all_artifacts
              (mk_proc (Some 0%Z) "Traceback: model load warning" EmptyString)) =
  Some (mk_resp 500 (failure
      ("Failed to parse sequential analysis results: " ++ "No JSON found in output"
       ++ ". Output: " ++ "Traceback: model load warning"))).
Proof.
  assert (Hn : ~ has_brace_pair "Traceback: model load warning").
  { apply from_open_brace_none. vm_compute. reflexivity. }
  split; [exact Hn |].
  apply (detect_no_json sample_image all_artifacts
           (mk_proc (Some 0%Z) "Traceback: model load warning" EmptyString));
    [reflexivity | simpl; auto | vm_compute; reflexivity | vm_compute; reflexivity
    | vm_compute; reflexivity | reflexivity | exact Hn].
Defined.

Lemma filter_absent (p : string) (fs : fs_state) :
  ~ In p fs -> filter (fun q => negb (String.eqb q p)) fs = fs.
Proof.
  induction fs as [| q fs IH]; intros H; simpl; [reflexivity |].
  destruct (String.eqb q p) eqn:E.
  - apply String.eqb_eq in E. subst q. exfalso. apply H. left. reflexivity.
  - simpl. f_equal. apply IH. intros Hin. apply H. right. exact Hin.
Qed.

Lemma detect_checks_none (fs : fs_state) :
  detect_checks fs = None ->
  In modelPath fs /\ In bumblefootModelPath fs /\ In sequentialScriptPath fs.
Proof.
  unfold detect_checks.
  destruct (existsSync modelPath fs) eqn:E1; [| discriminate].
  destruct (existsSync bumblefootModelPath fs) eqn:E2; [| discriminate].
  destruct (existsSync sequentialScriptPath fs) eqn:E3; [| discriminate].
  intros _. apply existsSync_In in E1, E2, E3. auto.
Qed.

(** Every answer of the [close] listener carries [success: true] exactly
    when its status is 200. *)
Lemma close_response_flag (code : option Z) (output error : string) :
  get (body (close_response code output error)) "success" =
  JBool (Z.eqb (status (close_response code output error)) 200).
Proof.
  unfold close_response.
  destruct code as [[| c | c] |]; try reflexivity.
  destruct (match_json output) as [m |]; [| reflexivity].
  destruct (JSON_parse m) as [result |]; [| reflexivity].
  destruct (get_strict result "success") as [ok |]; [| reflexivity].
  destruct (truthy ok); reflexivity.
Qed.

(** The handler runs at most one process, the sequential analysis script on
    the upload with the two model paths, and only when a file was uploaded
    and the pose model, the bumblefoot model and the script all exist.  It
    deletes nothing but the upload; on every path without a spawn it
    neither deletes nor spawns and does answer.  When the spawn fails, the
    uncaught ['error'] event leaves no answer and the upload on disk.
    Otherwise the upload is unlinked, and the answer is missing (the
    [close] listener throws) exactly when the upload has vanished from the
    disk before the process ended. *)
Theorem detect_spawn_shape (file : option string) (fs : fs_state) (pr : proc_result) :
  (spawned (detect file fs pr) = [] /\ unlinked (detect file fs pr) = [] /\
   out_fs (detect file fs pr) = fs /\ out_resp (detect file fs pr) <> None) \/
  (exists p, file = Some p /\
     In modelPath fs /\ In bumblefootModelPath fs /\ In sequentialScriptPath fs /\
     spawned (detect file fs pr) =
       [("python", [sequentialScriptPath; p; modelPath; bumblefootModelPath])] /\
     ((spawn_failed pr = true /\ unlinked (detect file fs pr) = [] /\
       out_fs (detect file fs pr) = fs /\ out_resp (detect file fs pr) = None) \/
      (spawn_failed pr = false /\ unlinked (detect file fs pr) = [p] /\
       out_fs (detect file fs pr) = filter (fun q => negb (String.eqb q p)) fs /\
       (out_resp (detect file fs pr) = None <-> ~ In p fs)))).
Proof.
  destruct file as [p |]; [| left; simpl; repeat split; discriminate].
  unfold detect.
  destruct (detect_checks fs) as [r |] eqn:Ec; [left; simpl; repeat split; discriminate |].
  right. exists p. destruct (detect_checks_none fs Ec) as [H1 [H2 H3]].
  do 4 (split; [assumption || reflexivity |]).
  destruct (spawn_failed pr) eqn:Es.
  { split; [reflexivity |]. left. simpl. auto. }
  split; [destruct (unlinkSync p fs); reflexivity |]. right. split; [reflexivity |].
  unfold unlinkSync. destruct (existsSync p fs) eqn:Ep; simpl.
  - apply existsSync_In in Ep. repeat split; try reflexivity; try discriminate.
    intros Hn. exfalso. exact (Hn Ep).
  - assert (Hn : ~ In p fs) by (rewrite <- existsSync_In; congruence).
    repeat split; try reflexivity; [symmetry; apply filter_absent; exact Hn | intros _; exact Hn].
Qed.

(** Every answer of the handler carries [success: true] exactly when its
    status is 200, whichever path produced it. *)
Theorem detect_success_flag (file : option string) (fs : fs_state) (pr : proc_result)
    (r : response) :
  out_resp (detect file fs pr) = Some r ->
  get (body r) "success" = JBool (Z.eqb (status r) 200).
Proof.
  destruct file as [p |]; simpl; [| intros H; injection H as <-; reflexivity].
  unfold detect_checks.
  destruct (existsSync modelPath fs); simpl; [| intros H; injection H as <-; reflexivity].
  destruct (existsSync bumblefootModelPath fs); simpl; [| intros H; injection H as <-; reflexivity].
  destruct (existsSync sequentialScriptPath fs); simpl; [| intros H; injection H as <-; reflexivity].
  destruct (spawn_failed pr); simpl; [intros H; discriminate H |].
  destruct (unlinkSync p fs); simpl; intros H; [| discriminate].
  injection H as <-. apply close_response_flag.
Qed.

Lemma detect_success_flag_witness :
  out_resp (detect (Some sample_image) all_artifacts
              (mk_proc (Some 0%Z) bumblefoot_stdout EmptyString)) =
    Some (close_response (Some 0%Z) bumblefoot_stdout EmptyString) /\
  get (body (close_response (Some 0%Z) bumblefoot_stdout EmptyString)) "success" =
    JBool (Z.eqb (status (close_response (Some 0%Z) bumblefoot_stdout EmptyString)) 200).
Proof.
  assert (H : out_resp (detect (Some sample_image) all_artifacts
                          (mk_proc (Some 0%Z) bumblefoot_stdout EmptyString)) =
              Some (close_response (Some 0%Z) bumblefoot_stdout EmptyString)).
  { vm_compute. reflexivity. }
  split; [exact H |].
  exact (detect_success_flag (Some sample_image) all_artifacts
           (mk_proc (Some 0%Z) bumblefoot_stdout EmptyString) _ H).
Defined.

(** A 200 answer is either the canned payload of mock mode (pose model
    missing) or the reshaping of a result that the script printed as JSON
    with a truthy [success], after a zero exit status. *)
Theorem detect_ok_sources (file : option string) (fs : fs_state) (pr : proc_result)
    (r : response) :
  out_resp (detect file fs pr) = Some r -> status r = 200%Z ->
  (~ In modelPath fs /\ r = mk_resp 200 mock_payload) \/
  (exit_code pr = Some 0%Z /\
   exists m result, match_json (stdout pr) = Some m /\ JSON_parse m = Some result /\
     truthy (get result "success") = true /\ body r = success_response result).
Proof.
  destruct file as [p |]; simpl; [| intros H; injection H as <-; discriminate].
  unfold detect_checks.
  destruct (existsSync modelPath fs) eqn:Em; simpl.
  2:{ intros H _. injection H as <-. left. split; [| reflexivity].
      rewrite <- existsSync_In. congruence. }
  destruct (existsSync bumblefootModelPath fs); simpl; [| intros H; injection H as <-; discriminate].
  destruct (existsSync sequentialScriptPath fs); simpl; [| intros H; injection H as <-; discriminate].
  destruct (spawn_failed pr); simpl; [intros H; discriminate H |].
  destruct (unlinkSync p fs); simpl; intros H; [| discriminate].
  injection H as <-. intros Hs. right. unfold close_response in Hs |- *.
  destruct (exit_code pr) as [[| c | c] |]; try discriminate Hs.
  split; [reflexivity |].
  destruct (match_json (stdout pr)) as [m |]; [| discriminate Hs].
  destruct (JSON_parse m) as [result |] eqn:Ej; [| discriminate Hs].
  destruct (get_strict result "success") as [ok |] eqn:Eg; [| discriminate Hs].
  apply get_strict_some in Eg. subst ok.
  destruct (truthy (get result "success")) eqn:Et; [| discriminate Hs].
  exists m, result. auto.
Qed.

Lemma detect_ok_sources_witness :
  out_resp (detect (Some sample_image) all_artifacts
              (mk_proc (Some 0%Z) bumblefoot_stdout EmptyString)) =
    Some (mk_resp 200 (success_response bumblefoot_result)) /\
  ((~ In modelPath all_artifacts /\
    mk_resp 200 (success_response bumblefoot_result) = mk_resp 200 mock_payload) \/
   (exit_code (mk_proc (Some 0%Z) bumblefoot_stdout EmptyString) = Some 0%Z /\
    exists m result, match_json bumblefoot_stdout = Some m /\ JSON_parse m = Some result /\
      truthy (get result "success") = true /\
      success_response bumblefoot_result = success_response result)).
Proof.
  assert (H : out_resp (detect (Some sample_image) all_artifacts
                          (mk_proc (Some 0%Z) bumblefoot_stdout EmptyString)) =
              Some (mk_resp 200 (success_response bumblefoot_result))).
  { vm_compute. reflexivity. }
  split; [exact H |].
  exact (detect_ok_sources (Some sample_image) all_artifacts
           (mk_proc (Some 0%Z) bumblefoot_stdout EmptyString) _ H eq_refl).
Defined.

Lemma from_open_brace_skip (pre s : string) :
  ~ In "{"%char (list_ascii_of_string pre) -> from_open_brace (pre ++ s) = from_open_brace s.
Proof.
  induction pre as [| c pre IH]; simpl; intros H; [reflexivity |].
  destruct (Ascii.eqb c "{"%char) eqn:E.
  - apply Ascii.eqb_eq in E. subst c. exfalso. apply H. left. reflexivity.
  - apply IH. intros Hin. apply H. right. exact Hin.
Qed.

Lemma upto_last_close_none (s : string) :
  ~ In "}"%char (list_ascii_of_string s) -> upto_last_close s = None.
Proof.
  induction s as [| c s IH]; simpl; intros H; [reflexivity |].
  rewrite IH by (intros Hin; apply H; right; exact Hin).
  destruct (Ascii.eqb c "}"%char) eqn:E; [| reflexivity].
  apply Ascii.eqb_eq in E. subst c. exfalso. apply H. left. reflexivity.
Qed.

Lemma string_app_assoc (a b c : string) : (a ++ b) ++ c = a ++ b ++ c.
Proof. induction a as [| x a IH]; simpl; [reflexivity | rewrite IH; reflexivity]. Qed.

Lemma upto_last_close_last (b post : string) :
  upto_last_close post = None ->
  upto_last_close (b ++ String "}"%char post) = Some (b ++ String "}"%char EmptyString).
Proof.
  intros Hp. induction b as [| c b IH]; simpl.
  - rewrite Hp. reflexivity.
  - rewrite IH. reflexivity.
Qed.

(** [/\{.*\}/s] does extract the printed object when the text before it
    holds no ['{'] and the text after it no ['}'], whatever braces the
    object itself contains. *)
Theorem match_json_isolated (pre b post : string) :
  ~ In "{"%char (list_ascii_of_string pre) ->
  ~ In "}"%char (list_ascii_of_string post) ->
  match_json (pre ++ String "{"%char (b ++ String "}"%char EmptyString) ++ post) =
    Some (String "{"%char (b ++ String "}"%char EmptyString)).
Proof.
  intros Hpre Hpost. unfold match_json.
  rewrite from_open_brace_skip by exact Hpre. simpl.
  rewrite string_app_assoc. simpl.
  rewrite (upto_last_close_last b post (upto_last_close_none post Hpost)).
  reflexivity.
Qed.

Lemma match_json_isolated_witness :
  (~ In "{"%char (list_ascii_of_string "Stage 1 ok: ")) /\
  (~ In "}"%char (list_ascii_of_string " (done)")) /\
  match_json ("Stage 1 ok: " ++ String "{"%char
                (quoted "pose" ++ ": {" ++ quoted "ok" ++ ": true}"
                 ++ String "}"%char EmptyString) ++ " (done)") =
    Some (String "{"%char (quoted "pose" ++ ": {" ++ quoted "ok" ++ ": true}"
                           ++ String "}"%char EmptyString)).
Proof.
  assert (H1 : ~ In "{"%char (list_ascii_of_string "Stage 1 ok: ")).
  { simpl. intuition discriminate. }
  assert (H2 : ~ In "}"%char (list_ascii_of_string " (done)")).
  { simpl. intuition discriminate. }
  split; [exact H1 |]. split; [exact H2 |].
  exact (match_json_isolated "Stage 1 ok: " (quoted "pose" ++ ": {" ++ quoted "ok" ++ ": true}")
           " (done)" H1 H2).
Defined.

(* ========================================================================== *)
(** * routes/pose.ts: analyzePoseForInjuries *)

(** The risk level is low exactly when no issue was found; the
    recommendations then are the two "healthy" lines alone, and otherwise
    end with the two "consult" lines. *)
Theorem analyzePose_low_iff_no_issue (feet_uneven : Q -> Q -> bool)
    (head_abnormal : keypoint -> keypoint -> bool) (kps : list keypoint) :
  let a := analyzePoseForInjuries feet_uneven head_abnormal kps in
  (risk_level a = RLow <-> detected_issues a = []) /\
  (detected_issues a = [] ->
     recommendations a = ["Rooster appears healthy based on pose analysis";
                          "Continue regular health monitoring"]) /\
  (detected_issues a <> [] ->
     exists rs, recommendations a =
       (rs ++ ["Consult with veterinarian for detailed examination";
               "Monitor rooster behavior and movement patterns"])%list).
Proof.
  unfold analyzePoseForInjuries. cbv zeta.
  destruct (Nat.ltb 0 (length (missing_critical kps))), (wing_asymmetric kps),
    (feet_check feet_uneven kps), (head_check head_abnormal kps);
    simpl; (split; [split; intros H; discriminate H || reflexivity |]);
    (split; [intros H; discriminate H || reflexivity |]);
    intros H; try (exfalso; apply H; reflexivity);
    match goal with |- exists rs, ?l = _ => exists (firstn (length l - 2) l); reflexivity end.
Qed.

(** The risk level is high exactly when the wings are asymmetric and the
    head check does not fire: the head check, coming last, resets the
    level to medium. *)
Theorem analyzePose_high_iff (feet_uneven : Q -> Q -> bool)
    (head_abnormal : keypoint -> keypoint -> bool) (kps : list keypoint) :
  risk_level (analyzePoseForInjuries feet_uneven head_abnormal kps) = RHigh <->
  wing_asymmetric kps = true /\ head_check head_abnormal kps = false.
Proof.
  unfold analyzePoseForInjuries. cbv zeta.
  destruct (Nat.ltb 0 (length (missing_critical kps))), (wing_asymmetric kps),
    (feet_check feet_uneven kps), (head_check head_abnormal kps);
    simpl; split; intros H; try reflexivity; try discriminate H;
    try (destruct H; discriminate); auto.
Qed.

(* ========================================================================== *)
(** * routes/scans.ts: createScan *)

(** The 400 answer is given exactly for a body whose [results] is falsy. *)
Theorem createScan_bad_request_iff (userId : string) (body : jsval) :
  createScan_data userId body = CSBadRequest <->
  exists results, get_strict body "results" = Some results /\ truthy results = false.
Proof.
  unfold createScan_data.
  destruct (get_strict body "results") as [results |];
    [| split; [discriminate | intros [r [H _]]; discriminate H]].
  destruct (truthy results) eqn:Et; simpl.
  - split; [| intros [r [H Hr]]; injection H as <-; congruence].
    destruct (injury_entries _ _ _); [| discriminate].
    destruct (notes_of _); discriminate.
  - split; [intros _; exists results; auto | reflexivity].
Qed.

Lemma createScan_bad_request_iff_witness :
  createScan_data placeholder_user (JObj [("results", JNull)]) = CSBadRequest.
Proof.
  apply (proj2 (createScan_bad_request_iff placeholder_user (JObj [("results", JNull)]))).
  exists JNull. split; reflexivity.
Defined.

(** What every inserted row satisfies: one detection per entry of
    [injuries] plus one for a truthy [injury_classification]; no detection
    carries a [severity] field; the analysis confidence is truthy, 0.75 when
    neither confidence of the results is; fps 30, resolution 640x480,
    status completed. *)
Theorem createScan_row_shape (userId : string) (body : jsval) (row : scan_insert) :
  createScan_data userId body = CSInsert row ->
  let results := get body "results" in
  length (ins_injury_detections row) =
    ((match get body "injuries" with JArr l => length l | _ => O end) +
     (if truthy (get results "injury_classification") then 1 else 0))%nat /\
  Forall (fun d => get_strict d "severity" = Some JUndef) (ins_injury_detections row) /\
  truthy (ins_analysis_confidence row) = true /\
  (truthy (get results "pose_confidence") = false ->
   truthy (get results "combined_confidence") = false ->
   ins_analysis_confidence row = JNum (75 # 100)) /\
  ins_user_id row = userId /\ ins_fps row = 30%Z /\
  ins_resolution row = "640x480" /\ ins_status row = "completed".
Proof.
  unfold createScan_data.
  destruct (get_strict body "results") as [results |] eqn:Er; [| discriminate].
  apply get_strict_some in Er. subst results.
  destruct (truthy (get body "results")) eqn:Et; [| discriminate]. simpl.
  set (conf := js_or (get (get body "results") "pose_confidence")
                 (js_or (get (get body "results") "combined_confidence") (JNum (75 # 100)))).
  set (src := js_or (get (get body "results") "analysis_type") (JStr "basic_scan")).
  destruct (injury_entries (get body "injuries") conf src) as [dets |] eqn:Ei; [| discriminate].
  destruct (notes_of (get body "notes")) as [notes |]; [| discriminate].
  intros H. injection H as <-. cbn [ins_injury_detections ins_analysis_confidence
    ins_user_id ins_fps ins_resolution ins_status].
  assert (Hd : length dets = match get body "injuries" with JArr l => length l | _ => O end /\
               Forall (fun d => get_strict d "severity" = Some JUndef) dets).
  { unfold injury_entries in Ei.
    destruct (get body "injuries"); try discriminate; injection Ei as <-;
      [split; [reflexivity | constructor] .. |].
    split; [apply length_map |].
    apply Forall_forall. intros d Hd. apply in_map_iff in Hd.
    destruct Hd as [i [<- _]]. reflexivity. }
  destruct Hd as [Hlen Hsev].
  assert (Hconf : truthy conf = true).
  { unfold conf, js_or.
    destruct (truthy (get (get body "results") "pose_confidence")) eqn:E1; [exact E1 |].
    destruct (truthy (get (get body "results") "combined_confidence")) eqn:E2; [exact E2 |].
    reflexivity. }
  repeat split.
  - destruct (truthy (get (get body "results") "injury_classification")).
    + rewrite length_app, Hlen. reflexivity.
    + rewrite Hlen. symmetry. apply Nat.add_0_r.
  - destruct (truthy (get (get body "results") "injury_classification")); [| exact Hsev].
    apply Forall_app. split; [exact Hsev |]. constructor; [reflexivity | constructor].
  - exact Hconf.
  - intros H1 H2. unfold conf, js_or. rewrite H1, H2. reflexivity.
Qed.

(** A body with two injuries, a classification and no confidence. *)
Definition scan_body : jsval :=
  JObj [("results", JObj [("analysis_type", JStr "sequential_validation");
                           ("injury_classification", JObj [("label", JStr "bumblefoot")])]);
        ("injuries", JArr [JStr "bumblefoot"; JStr "wing"]);
        ("notes", JStr "  limping  ")].

Lemma createScan_row_shape_witness :
  exists row, createScan_data placeholder_user scan_body = CSInsert row /\
  length (ins_injury_detections row) =
    ((match get scan_body "injuries" with JArr l => length l | _ => O end) +
     (if truthy (get (get scan_body "results") "injury_classification") then 1 else 0))%nat /\
  Forall (fun d => get_strict d "severity" = Some JUndef) (ins_injury_detections row) /\
  truthy (ins_analysis_confidence row) = true /\
  (truthy (get (get scan_body "results") "pose_confidence") = false ->
   truthy (get (get scan_body "results") "combined_confidence") = false ->
   ins_analysis_confidence row = JNum (75 # 100)) /\
  ins_user_id row = placeholder_user /\ ins_fps row = 30%Z /\
  ins_resolution row = "640x480" /\ ins_status row = "completed".
Proof.
  destruct (createScan_data placeholder_user scan_body) as [| | row] eqn:E;
    [vm_compute in E; discriminate E | vm_compute in E; discriminate E |].
  exists row. split; [reflexivity |].
  exact (createScan_row_shape placeholder_user scan_body row E).
Defined.

(** The detections of an inserted row, read back by the getScans mapper:
    the mapping succeeds, and the severity is "low" for none and "medium"
    otherwise, never "high", since createScan writes no [severity]. *)
Theorem createScan_then_getScans (userId : string) (body : jsval) (row : scan_insert)
    (sid : string) (conf : option Q) :
  createScan_data userId body = CSInsert row ->
  exists m, map_scan_list (mk_scan sid userId (JArr (ins_injury_detections row)) conf) = Some m /\
    m_severity m = (match ins_injury_detections row with [] => "low" | _ => "medium" end) /\
    length (m_injuries m) = length (ins_injury_detections row).
Proof.
  intros H.
  destruct (createScan_row_shape userId body row H) as [_ [Hsev _]].
  assert (Hnn : forall d, In d (ins_injury_detections row) -> get_strict d "type" <> None).
  { intros d Hd. rewrite Forall_forall in Hsev. specialize (Hsev d Hd).
    destruct d; simpl in *; discriminate. }
  assert (Hs : some_severe (ins_injury_detections row) = Some false).
  { induction (ins_injury_detections row) as [| d l IH]; [reflexivity |].
    inversion Hsev as [| ? ? Hd Hl]; subst. simpl. rewrite Hd. simpl. apply IH; auto.
    intros d' Hd'. apply Hnn. right. exact Hd'. }
  assert (Hi : exists inj, map_opt (fun inj => option_map (fun t => js_or t (JStr "Unknown"))
                                                (get_strict inj "type"))
                             (ins_injury_detections row) = Some inj /\
                           length inj = length (ins_injury_detections row)).
  { clear Hs Hsev. induction (ins_injury_detections row) as [| d l IH];
      [exists []; split; reflexivity |].
    destruct IH as [inj [Hinj Hlen]]; [intros d' Hd'; apply Hnn; right; exact Hd' |].
    simpl. destruct (get_strict d "type") as [t |] eqn:Ed;
      [| exfalso; apply (Hnn d); [left; reflexivity | exact Ed]].
    rewrite Hinj. simpl. eexists. split; [reflexivity |]. simpl. f_equal. exact Hlen. }
  destruct Hi as [inj [Hinj Hlen]].
  unfold map_scan_list. simpl. rewrite Hinj.
  destruct (ins_injury_detections row) as [| d l] eqn:El.
  - eexists. split; [reflexivity |]. split; [reflexivity | exact Hlen].
  - cbn beta iota. rewrite Hs. simpl. eexists. split; [reflexivity |].
    split; [reflexivity | exact Hlen].
Qed.

Lemma createScan_then_getScans_witness :
  exists row, createScan_data placeholder_user scan_body = CSInsert row /\
  exists m, map_scan_list (mk_scan "scan-9" placeholder_user
                             (JArr (ins_injury_detections row)) (Some (95 # 100))) = Some m /\
    m_severity m = (match ins_injury_detections row with [] => "low" | _ => "medium" end) /\
    length (m_injuries m) = length (ins_injury_detections row).
Proof.
  destruct (createScan_data placeholder_user scan_body) as [| | row] eqn:E;
    [vm_compute in E; discriminate E | vm_compute in E; discriminate E |].
  exists row. split; [reflexivity |].
  exact (createScan_then_getScans placeholder_user scan_body row "scan-9" (Some (95 # 100)) E).
Defined.

(** The detections of an inserted row, counted by createReport: every one
    counts towards the total and none is high priority. *)
Theorem createScan_then_report_counts (userId : string) (body : jsval) (row : scan_insert) :
  createScan_data userId body = CSInsert row ->
  injury_counts (JArr (ins_injury_detections row)) =
    Some (length (ins_injury_detections row), O).
Proof.
  intros H. destruct (createScan_row_shape userId body row H) as [_ [Hsev _]].
  unfold injury_counts. simpl. f_equal.
  assert (Hc : count_severe (ins_injury_detections row) = Some O).
  { induction (ins_injury_detections row) as [| d l IH]; [reflexivity |].
    inversion Hsev as [| ? ? Hd Hl]; subst. simpl. rewrite Hd, (IH Hl). reflexivity. }
  rewrite Hc. reflexivity.
Qed.

Lemma createScan_then_report_counts_witness :
  exists row, createScan_data placeholder_user scan_body = CSInsert row /\
    injury_counts (JArr (ins_injury_detections row)) =
      Some (length (ins_injury_detections row), O).
Proof.
  destruct (createScan_data placeholder_user scan_body) as [| | row] eqn:E;
    [vm_compute in E; discriminate E | vm_compute in E; discriminate E |].
  exists row. split; [reflexivity |].
  exact (createScan_then_report_counts placeholder_user scan_body row E).
Defined.

(* ========================================================================== *)
(** * routes/reports.ts: createReport, and requireAuth in front of it *)

Lemma getUserIdFromAuth_placeholder (h : option string) :
  getUserIdFromAuth h = placeholder_user.
Proof.
  destruct h as [h |]; [| reflexivity]. unfold getUserIdFromAuth.
  destruct (_ || _); reflexivity.
Qed.

Lemma select_scan_some (rows : list scan_row) (sid uid : string) (r : scan_row) :
  select_scan rows sid uid = Some r -> In r rows /\ scan_id r = sid /\ scan_user_id r = uid.
Proof.
  unfold select_scan.
  destruct (filter _ rows) as [| r' [| r'' rest]] eqn:E; try discriminate.
  intros H. injection H as <-.
  assert (Hr : In r' (filter (fun r => String.eqb (scan_id r) sid &&
                                       String.eqb (scan_user_id r) uid) rows)).
  { rewrite E. left. reflexivity. }
  apply filter_In in Hr. destruct Hr as [Hin Hb].
  apply andb_prop in Hb. destruct Hb as [H1 H2].
  apply String.eqb_eq in H1, H2. auto.
Qed.

Lemma count_severe_le (l : list jsval) (n : nat) :
  count_severe l = Some n -> (n <= length l)%nat.
Proof.
  revert n. induction l as [| x r IH]; intros n H; simpl in H.
  - injection H as <-. apply le_n.
  - destruct (get_strict x "severity") as [s |]; [| discriminate].
    destruct (count_severe r) as [k |]; [| discriminate].
    injection H as <-. specialize (IH k eq_refl). simpl.
    destruct (is_str s "severe"); lia.
Qed.

Lemma injury_counts_le (d : jsval) (total high : nat) :
  injury_counts d = Some (total, high) -> (high <= total)%nat.
Proof.
  unfold injury_counts. destruct (js_or d (JArr [])); intros H;
    try (injection H as <- <-; apply le_n).
  destruct (count_severe l) as [n |] eqn:E; [| discriminate].
  injection H as <- <-. exact (count_severe_le _ _ E).
Qed.

Lemma createReport_status (auth : option string) (body : create_report_request)
    (d : db) (ok : bool) :
  let s := status (fst (createReport auth body d ok)) in
  s = 201%Z \/ s = 400%Z \/ s = 404%Z \/ s = 500%Z.
Proof.
  unfold createReport.
  destruct (req_scanId body), (req_roosterId body), (req_title body); simpl; auto.
  destruct (_ || _); simpl; auto.
  destruct (select_scan _ _ _); simpl; auto.
  destruct (injury_counts _) as [[total high] |]; simpl; auto.
  destruct ok; simpl; auto.
Qed.

(** The handler never changes the scans; it appends exactly one report row
    when it answers 201 and leaves the database as it is otherwise. *)
Theorem createReport_effect (auth : option string) (body : create_report_request)
    (d : db) (ok : bool) :
  scans (snd (createReport auth body d ok)) = scans d /\
  ((status (fst (createReport auth body d ok)) = 201%Z /\
    exists row, health_reports (snd (createReport auth body d ok)) =
                (health_reports d ++ [row])%list) \/
   (status (fst (createReport auth body d ok)) <> 201%Z /\
    snd (createReport auth body d ok) = d)).
Proof.
  unfold createReport.
  destruct (req_scanId body), (req_roosterId body), (req_title body);
    try (split; [reflexivity | right; split; [discriminate | reflexivity]]).
  destruct (_ || _); [split; [reflexivity | right; split; [discriminate | reflexivity]] |].
  destruct (select_scan _ _ _);
    [| split; [reflexivity | right; split; [discriminate | reflexivity]]].
  destruct (injury_counts _) as [[total high] |];
    [| split; [reflexivity | right; split; [discriminate | reflexivity]]].
  destruct ok; split; try reflexivity.
  - left. split; [reflexivity | eexists; reflexivity].
  - right. split; [discriminate | reflexivity].
Qed.

(** A stored report row: its scan and rooster ids are non-empty, its scan
    is one of the placeholder user's scans, its title is the trimmed
    request title and is not empty, its type is not empty, its status is
    draft, and its high-priority count does not exceed its total. *)
Theorem createReport_row_fields (auth : option string) (body : create_report_request)
    (d d' : db) (ok : bool) (r : response) (row : report_row) :
  createReport auth body d ok = (r, d') ->
  health_reports d' = (health_reports d ++ [row])%list ->
  (exists title, req_title body = Some title /\ rep_title row = js_trim title) /\
  rep_title row <> "" /\ rep_scan_id row <> "" /\ rep_rooster_id row <> "" /\
  req_scanId body = Some (rep_scan_id row) /\
  rep_user_id row = placeholder_user /\
  (exists s, In s (scans d) /\ scan_id s = rep_scan_id row /\
             scan_user_id s = placeholder_user) /\
  rep_report_type row <> "" /\ rep_status row = "draft" /\
  (rep_high_priority_injuries row <= rep_total_injuries_detected row)%nat.
Proof.
  intros H Hrow.
  assert (Hsame : d' = d -> False).
  { intros ->. apply (f_equal (@length report_row)) in Hrow.
    rewrite length_app in Hrow. simpl in Hrow. lia. }
  unfold createReport in H.
  destruct (req_scanId body) as [sid |] eqn:Esc; [| injection H as _ Hd; exfalso; exact (Hsame (eq_sym Hd))].
  destruct (req_roosterId body) as [rid |];
    [| injection H as _ Hd; exfalso; exact (Hsame (eq_sym Hd))].
  destruct (req_title body) as [title |] eqn:Etl;
    [| injection H as _ Hd; exfalso; exact (Hsame (eq_sym Hd))].
  destruct (String.eqb sid "" || String.eqb rid "" || String.eqb (js_trim title) "") eqn:Eb;
    [injection H as _ Hd; exfalso; exact (Hsame (eq_sym Hd)) |].
  destruct (select_scan (scans d) sid (getUserIdFromAuth auth)) as [scan |] eqn:Es;
    [| injection H as _ Hd; exfalso; exact (Hsame (eq_sym Hd))].
  destruct (injury_counts (injury_detections scan)) as [[total high] |] eqn:Ec;
    [| injection H as _ Hd; exfalso; exact (Hsame (eq_sym Hd))].
  destruct ok; [| injection H as _ Hd; exfalso; exact (Hsame (eq_sym Hd))].
  injection H as _ <-. simpl in Hrow. apply app_inv_head in Hrow.
  injection Hrow as <-. simpl.
  apply orb_false_iff in Eb. destruct Eb as [Eb Et]. apply orb_false_iff in Eb.
  destruct Eb as [Esid Erid]. apply String.eqb_neq in Esid, Erid, Et.
  rewrite getUserIdFromAuth_placeholder in Es |- *.
  destruct (select_scan_some _ _ _ _ Es) as [Hin [Hid Huid]].
  split; [exists title; split; reflexivity |].
  do 5 (split; [assumption || reflexivity |]).
  split; [exists scan; auto |].
  split; [destruct (req_reportType body) as [t |]; [destruct (String.eqb t "") eqn:E;
            [discriminate | apply String.eqb_neq; exact E] | discriminate] |].
  split; [reflexivity |]. exact (injury_counts_le _ _ _ Ec).
Qed.

Lemma createReport_row_fields_witness :
  exists row,
  createReport None (report_request "scan-7") (mk_db [owned_scan] []) true =
    (fst (createReport None (report_request "scan-7") (mk_db [owned_scan] []) true),
     mk_db [owned_scan] [row]) /\
  (exists title, req_title (report_request "scan-7") = Some title /\
                 rep_title row = js_trim title) /\
  rep_title row <> "" /\ rep_scan_id row <> "" /\ rep_rooster_id row <> "" /\
  req_scanId (report_request "scan-7") = Some (rep_scan_id row) /\
  rep_user_id row = placeholder_user /\
  (exists s, In s [owned_scan] /\ scan_id s = rep_scan_id row /\
             scan_user_id s = placeholder_user) /\
  rep_report_type row <> "" /\ rep_status row = "draft" /\
  (rep_high_priority_injuries row <= rep_total_injuries_detected row)%nat.
Proof.
  destruct (createReport None (report_request "scan-7") (mk_db [owned_scan] []) true)
    as [r d'] eqn:E.
  destruct d' as [sc [| row [| row' rest]]]; vm_compute in E; try discriminate E.
  injection E as Er Es Erow. subst.
  eexists. split; [reflexivity |].
  exact (createReport_row_fields None (report_request "scan-7") (mk_db [owned_scan] [])
           (mk_db [owned_scan] [_]) true _ _ eq_refl eq_refl).
Defined.

Lemma substring_all (t : string) : substring 0 (String.length t) t = t.
Proof. induction t as [| c t IH]; simpl; [reflexivity | rewrite IH; reflexivity]. Qed.

Lemma strip_prefix_app (p s : string) : strip_prefix p (p ++ s) = Some s.
Proof.
  induction p as [| c p IH]; simpl; [reflexivity |].
  rewrite Ascii.eqb_refl. exact IH.
Qed.

Lemma strip_prefix_some (p s t : string) : strip_prefix p s = Some t -> s = p ++ t.
Proof.
  revert s. induction p as [| c p IH]; intros s H; simpl in H.
  - injection H as <-. reflexivity.
  - destruct s as [| c' s]; [discriminate |].
    destruct (Ascii.eqb c c') eqn:E; [| discriminate].
    apply Ascii.eqb_eq in E. subst c'. simpl. f_equal. apply IH. exact H.
Qed.

(** [requireAuth] lets a request through exactly when its header is
    "Bearer " followed by a token that verifies; it strips exactly that
    prefix, and the user it attaches is the token's [sub] and [email]. *)
Theorem requireAuth_pass_iff (jwt_verify : string -> option jsval)
    (authHeader : option string) (user : jsval) :
  requireAuth jwt_verify authHeader = AuthPass user <->
  exists token decoded, authHeader = Some ("Bearer " ++ token) /\
    jwt_verify token = Some decoded /\
    user = JObj [("id", get decoded "sub"); ("email", get decoded "email")].
Proof.
  split.
  - destruct authHeader as [h |]; simpl; [| discriminate].
    unfold startsWith. destruct (strip_prefix "Bearer " h) as [token |] eqn:Ep; [| discriminate].
    apply strip_prefix_some in Ep. subst h.
    replace (substring 7 (String.length ("Bearer " ++ token) - 7) ("Bearer " ++ token))
      with token by (simpl; rewrite Nat.sub_0_r, substring_all; reflexivity).
    destruct (jwt_verify token) as [decoded |] eqn:Ej; intros H; [| discriminate].
    injection H as <-. exists token, decoded. auto.
  - intros [token [decoded [-> [Ej ->]]]].
    unfold requireAuth, startsWith. rewrite strip_prefix_app.
    replace (substring 7 (String.length ("Bearer " ++ token) - 7) ("Bearer " ++ token))
      with token by (simpl; rewrite Nat.sub_0_r, substring_all; reflexivity).
    rewrite Ej. reflexivity.
Qed.

(** Behind [requireAuth], the report route answers 401 exactly when
    authentication fails, and then leaves the database as it is;
    createReport itself never answers 401. *)
Theorem postReport_unauthorized (jwt_verify : string -> option jsval)
    (authHeader : option string) (body : create_report_request) (d : db) (ok : bool) :
  (status (fst (postReport jwt_verify authHeader body d ok)) = 401%Z <->
   exists r, requireAuth jwt_verify authHeader = AuthReject r) /\
  ((exists r, requireAuth jwt_verify authHeader = AuthReject r) ->
   snd (postReport jwt_verify authHeader body d ok) = d).
Proof.
  assert (Hrej : forall r, requireAuth jwt_verify authHeader = AuthReject r -> status r = 401%Z).
  { intros r. destruct authHeader as [h |]; simpl; [| intros H; injection H as <-; reflexivity].
    destruct (startsWith h "Bearer "); [| intros H; injection H as <-; reflexivity].
    destruct (jwt_verify _); intros H; [discriminate | injection H as <-; reflexivity]. }
  unfold postReport.
  destruct (requireAuth jwt_verify authHeader) as [r | user] eqn:Ea.
  - split; [split; [intros _; exists r; reflexivity | intros _; exact (Hrej r eq_refl)] |].
    intros _. reflexivity.
  - split; [| intros [r H]; discriminate H].
    split; [| intros [r H]; discriminate H].
    intros Hs. exfalso.
    destruct (createReport_status authHeader body d ok) as [E | [E | [E | E]]];
      rewrite Hs in E; discriminate E.
Qed.

(** Whatever the verified token says ([sub] included), a report stored
    through the authenticated route belongs to the placeholder user and
    refers to one of the placeholder user's scans. *)
Theorem postReport_owner_ignores_token (jwt_verify : string -> option jsval)
    (authHeader : option string) (body : create_report_request) (d d' : db) (ok : bool)
    (r : response) (row : report_row) :
  postReport jwt_verify authHeader body d ok = (r, d') ->
  health_reports d' = (health_reports d ++ [row])%list ->
  (exists user, requireAuth jwt_verify authHeader = AuthPass user) /\
  rep_user_id row = placeholder_user /\
  exists s, In s (scans d) /\ scan_id s = rep_scan_id row /\ scan_user_id s = placeholder_user.
Proof.
  intros H Hrow. unfold postReport in H.
  destruct (requireAuth jwt_verify authHeader) as [r' | user] eqn:Ea.
  - injection H as _ <-. apply (f_equal (@length report_row)) in Hrow.
    rewrite length_app in Hrow. simpl in Hrow. lia.
  - split; [exists user; reflexivity |].
    destruct (createReport_row_fields _ _ _ _ _ _ _ H Hrow)
      as [_ [_ [_ [_ [_ [Hu [Hs _]]]]]]].
    split; [exact Hu | exact Hs].
Qed.

Lemma postReport_owner_ignores_token_witness :
  exists row,
  postReport sample_verify (Some "Bearer tok-42") (report_request "scan-7")
    (mk_db [owned_scan] []) true =
    (fst (postReport sample_verify (Some "Bearer tok-42") (report_request "scan-7")
            (mk_db [owned_scan] []) true), mk_db [owned_scan] [row]) /\
  (exists user, requireAuth sample_verify (Some "Bearer tok-42") = AuthPass user) /\
  rep_user_id row = placeholder_user /\
  exists s, In s [owned_scan] /\ scan_id s = rep_scan_id row /\
            scan_user_id s = placeholder_user.
Proof.
  destruct (postReport sample_verify (Some "Bearer tok-42") (report_request "scan-7")
              (mk_db [owned_scan] []) true) as [r d'] eqn:E.
  destruct d' as [sc [| row [| row' rest]]]; vm_compute in E; try discriminate E.
  injection E as Er Es Erow. subst.
  eexists. split; [reflexivity |].
  exact (postReport_owner_ignores_token sample_verify (Some "Bearer tok-42")
           (report_request "scan-7") (mk_db [owned_scan] []) (mk_db [owned_scan] [_])
           true _ _ eq_refl eq_refl).
Defined.

(* ========================================================================== *)
(** * routes/upload.ts: POST /api/upload *)

Lemma split_on_cons (c : ascii) (s : string) : exists p ps, split_on c s = p :: ps.
Proof.
  destruct s as [| x r]; simpl; [eexists _, _; reflexivity |].
  destruct (Ascii.eqb x c); [eexists _, _; reflexivity |].
  destruct (split_on c r); eexists _, _; reflexivity.
Qed.

Lemma concat_cons_char (sep p : string) (x : ascii) (ps : list string) :
  String.concat sep (String x p :: ps) = String x (String.concat sep (p :: ps)).
Proof. destruct ps; reflexivity. Qed.

(** Joining the pieces with the separator gives the string back. *)
Lemma split_on_concat (c : ascii) (s : string) :
  String.concat (String c EmptyString) (split_on c s) = s.
Proof.
  induction s as [| x r IH]; [reflexivity |]. cbn [split_on].
  destruct (Ascii.eqb x c) eqn:E.
  - apply Ascii.eqb_eq in E. subst x.
    destruct (split_on_cons c r) as [p [ps Hs]].
    rewrite Hs in IH |- *.
    change (String.concat (String c EmptyString) (EmptyString :: p :: ps))
      with (EmptyString ++ String c EmptyString ++ String.concat (String c EmptyString) (p :: ps)).
    rewrite IH. reflexivity.
  - destruct (split_on_cons c r) as [p [ps Hs]].
    rewrite Hs in IH |- *. cbv iota. rewrite concat_cons_char, IH. reflexivity.
Qed.

(** No piece holds the separator. *)
Lemma split_on_no_sep (c : ascii) (s : string) :
  Forall (fun e => ~ In c (list_ascii_of_string e)) (split_on c s).
Proof.
  induction s as [| x r IH]; simpl; [constructor; [intros [] | constructor] |].
  destruct (Ascii.eqb x c) eqn:E; [constructor; [intros [] | exact IH] |].
  destruct (split_on c r) as [| p ps]; [constructor; [| constructor] |].
  - simpl. intros [H | []]. subst x. rewrite Ascii.eqb_refl in E. discriminate.
  - inversion IH as [| ? ? Hp Hps]; subst. constructor; [| exact Hps].
    simpl. intros [H | H]; [subst x; rewrite Ascii.eqb_refl in E; discriminate | exact (Hp H)].
Qed.

Lemma concat_snoc (sep e : string) (l : list string) :
  l <> [] -> String.concat sep (l ++ [e]) = String.concat sep l ++ sep ++ e.
Proof.
  intros Hl. induction l as [| x [| y l] IH]; [exfalso; apply Hl; reflexivity | reflexivity |].
  change (String.concat sep (x :: (y :: l ++ [e])%list) =
          (x ++ sep ++ String.concat sep (y :: l)) ++ sep ++ e).
  change (String.concat sep (x :: (y :: l ++ [e])%list))
    with (x ++ sep ++ String.concat sep ((y :: l) ++ [e])%list).
  rewrite IH by discriminate. rewrite !string_app_assoc. reflexivity.
Qed.

(** [originalname.split('.').pop()] holds no dot, and is either the whole
    name (no dot in it) or what follows its last dot. *)
Lemma fileExt_spec (name : string) :
  ~ In "."%char (list_ascii_of_string (fileExt name)) /\
  (name = fileExt name \/ exists pre, name = pre ++ "." ++ fileExt name).
Proof.
  pose proof (split_on_concat "."%char name) as Hc.
  pose proof (split_on_no_sep "."%char name) as Hn.
  destruct (split_on_cons "."%char name) as [p [ps Hs]].
  unfold fileExt. rewrite Hs in Hc, Hn |- *.
  destruct (exists_last (l := p :: ps) ltac:(discriminate)) as [l [e He]].
  rewrite He in Hc, Hn |- *. rewrite rev_unit.
  rewrite Forall_forall in Hn. split; [apply Hn, in_or_app; right; left; reflexivity |].
  destruct l as [| x l]; [left; symmetry; exact Hc |].
  right. exists (String.concat "." (x :: l)).
  rewrite concat_snoc in Hc by discriminate. symmetry. exact Hc.
Qed.

(** With a file, [uploadImage] sends exactly one object to storage, under
    [roosters/], named by the fresh id and the name's extension: the text
    after the last dot of the original name, or the whole name when it has
    no dot.  Without a file it stores nothing. *)
Theorem uploadImage_object_path (file : option upload_file) (uuid : string)
    (storage_ok : bool) (publicUrl : string -> string) :
  match file with
  | None => uploadImage file uuid storage_ok publicUrl = (mk_resp 400 (api_error "No file provided"), [])
  | Some f =>
    exists ext, snd (uploadImage file uuid storage_ok publicUrl) = ["roosters/" ++ uuid ++ "." ++ ext] /\
      ~ In "."%char (list_ascii_of_string ext) /\
      (originalname f = ext \/ exists pre, originalname f = pre ++ "." ++ ext)
  end.
Proof.
  destruct file as [f |]; [| reflexivity].
  exists (fileExt (originalname f)). split.
  - simpl. destruct storage_ok; reflexivity.
  - apply fileExt_spec.
Qed.

(** Storage is reached only for a file whose MIME type starts with
    "image/" and whose size is at most 5 MB; a 200 answer comes only from
    a successful storage call and carries the public URL of the stored
    object. *)
Theorem upload_route_guard (file : option upload_file) (uuid : string) (storage_ok : bool)
    (publicUrl : string -> string) :
  (snd (upload_route file uuid storage_ok publicUrl) <> [] ->
   exists f, file = Some f /\ startsWith (mimetype f) "image/" = true /\
     (size f <= 5 * 1024 * 1024)%Z) /\
  (status (fst (upload_route file uuid storage_ok publicUrl)) = 200%Z ->
   storage_ok = true /\ exists path, snd (upload_route file uuid storage_ok publicUrl) = [path] /\
     body (fst (upload_route file uuid storage_ok publicUrl)) =
       JObj [("data", JObj [("url", JStr (publicUrl path))]); ("success", JBool true)]).
Proof.
  destruct file as [f |]; simpl; [| split; [intros H; exfalso; apply H; reflexivity |
                                          intros H; discriminate H]].
  unfold fileFilter.
  destruct (startsWith (mimetype f) "image/") eqn:Em; simpl;
    [| split; [intros H; exfalso; apply H; reflexivity | intros H; discriminate H]].
  destruct (Z.ltb _ (size f)) eqn:Ez; simpl;
    [split; [intros H; exfalso; apply H; reflexivity | intros H; discriminate H] |].
  apply Z.ltb_ge in Ez.
  split; [intros _; exists f; split; [reflexivity | split; [exact Em | lia]] |].
  destruct storage_ok; simpl; intros H; [| discriminate H].
  split; [reflexivity |]. eexists. split; reflexivity.
Qed.

(* ========================================================================== *)
(** * JSON.parse on string literals *)

Lemma parse_chars_plain (s rest : string) :
  (forall c, In c (list_ascii_of_string s) ->
     c <> dq /\ c <> "\"%char /\ (32 <= nat_of_ascii c)%nat) ->
  parse_chars (s ++ String dq rest) = POk s rest.
Proof.
  induction s as [| c s IH]; intros H; [reflexivity |].
  destruct (H c (or_introl eq_refl)) as [Hq [Hb Hlo]].
  simpl. apply Ascii.eqb_neq in Hq, Hb. rewrite Hq, Hb.
  destruct (Nat.ltb (nat_of_ascii c) 32) eqn:E; [apply Nat.ltb_lt in E; lia |].
  rewrite IH; [reflexivity |]. intros c' Hc'. apply H. right. exact Hc'.
Qed.

(** [JSON.parse] gives back the text of a string literal whose characters
    are neither a double quote, nor a backslash, nor a control character. *)
Theorem JSON_parse_string_literal (s : string) :
  (forall c, In c (list_ascii_of_string s) ->
     c <> dq /\ c <> "\"%char /\ (32 <= nat_of_ascii c)%nat) ->
  JSON_parse (quoted s) = Some (JStr s).
Proof.
  intros H. unfold JSON_parse, json_parse_raw, json_fuel, quoted.
  set (n := String.length _). replace (2 * n + 2)%nat with (S (2 * n + 1)) by lia.
  simpl. rewrite (parse_chars_plain s EmptyString H). reflexivity.
Qed.

Lemma JSON_parse_string_literal_witness :
  JSON_parse (quoted "bumblefoot") = Some (JStr "bumblefoot").
Proof.
  apply JSON_parse_string_literal. intros c Hc.
  simpl in Hc. repeat (destruct Hc as [<- | Hc]; [vm_compute; repeat split; discriminate || lia |]).
  destruct Hc.
Defined.

(* ========================================================================== *)
(** * The text fields the handlers store are trimmed *)

Lemma list_ascii_of_string_app (a b : string) :
  list_ascii_of_string (a ++ b) = (list_ascii_of_string a ++ list_ascii_of_string b)%list.
Proof. induction a as [| c a IH]; simpl; [reflexivity | rewrite IH; reflexivity]. Qed.

Lemma string_of_list_ascii_app (l1 l2 : list ascii) :
  string_of_list_ascii (l1 ++ l2) = string_of_list_ascii l1 ++ string_of_list_ascii l2.
Proof. induction l1 as [| c l1 IH]; simpl; [reflexivity | rewrite IH; reflexivity]. Qed.

Lemma reverse_string_app (a b : string) :
  reverse_string (a ++ b) = reverse_string b ++ reverse_string a.
Proof.
  unfold reverse_string. rewrite list_ascii_of_string_app, rev_app_distr.
  apply string_of_list_ascii_app.
Qed.

Lemma reverse_string_involutive (s : string) : reverse_string (reverse_string s) = s.
Proof.
  unfold reverse_string. rewrite list_ascii_of_string_of_list_ascii, rev_involutive.
  apply string_of_list_ascii_of_string.
Qed.

(** The string does not start with white space. *)
Definition no_leading_ws (s : string) : Prop :=
  forall c t, s = String c t -> is_js_ws c = false.

Lemma trim_left_suffix (s : string) : exists w, s = w ++ trim_left s.
Proof.
  induction s as [| c s IH]; simpl; [exists EmptyString; reflexivity |].
  destruct (is_js_ws c).
  - destruct IH as [w Hw]. exists (String c w). simpl. rewrite <- Hw. reflexivity.
  - exists EmptyString. reflexivity.
Qed.

Lemma trim_left_head (s : string) : no_leading_ws (trim_left s).
Proof.
  induction s as [| c s IH]; simpl; [intros c' t H; discriminate H |].
  destruct (is_js_ws c) eqn:E; [exact IH |].
  intros c' t H. injection H as <- _. exact E.
Qed.

Lemma trim_left_fix (s : string) : no_leading_ws s -> trim_left s = s.
Proof.
  destruct s as [| c t]; intros H; [reflexivity |]. simpl.
  rewrite (H c t eq_refl). reflexivity.
Qed.

Lemma js_trim_idempotent (s : string) : js_trim (js_trim s) = js_trim s.
Proof.
  unfold js_trim.
  set (u := trim_left s). set (v := trim_left (reverse_string u)).
  assert (Hv : no_leading_ws v) by apply trim_left_head.
  assert (Ht : no_leading_ws (reverse_string v)).
  { destruct (trim_left_suffix (reverse_string u)) as [w Hw]. fold v in Hw.
    assert (Hu : u = reverse_string v ++ reverse_string w).
    { rewrite <- (reverse_string_involutive u), Hw. apply reverse_string_app. }
    intros c t Hc. rewrite Hc in Hu. simpl in Hu.
    exact (trim_left_head s c _ Hu). }
  rewrite (trim_left_fix _ Ht), reverse_string_involutive, (trim_left_fix _ Hv).
  reflexivity.
Qed.

(** [s?.trim() || null] gives null or a non-empty string that trimming
    leaves as it is. *)
Lemma trim_or_null_trimmed (s : option string) :
  trim_or_null s = JNull \/
  exists t, trim_or_null s = JStr t /\ t <> "" /\ js_trim t = t.
Proof.
  destruct s as [s |]; simpl; [| left; reflexivity].
  destruct (String.eqb (js_trim s) "") eqn:E; [left; reflexivity |].
  right. exists (js_trim s). split; [reflexivity |]. split.
  - apply String.eqb_neq. exact E.
  - apply js_trim_idempotent.
Qed.

(** A stored report's title is a non-empty string already trimmed; its
    summary, detailed analysis and recommendations are each null or a
    non-empty string already trimmed. *)
Theorem createReport_text_trimmed (auth : option string) (body : create_report_request)
    (d d' : db) (ok : bool) (r : response) (row : report_row) :
  createReport auth body d ok = (r, d') ->
  health_reports d' = (health_reports d ++ [row])%list ->
  rep_title row <> "" /\ js_trim (rep_title row) = rep_title row /\
  Forall (fun v => v = JNull \/ exists t, v = JStr t /\ t <> "" /\ js_trim t = t)
    [rep_summary row; rep_detailed_analysis row; rep_recommendations row].
Proof.
  intros H Hrow.
  destruct (createReport_row_fields auth body d d' ok r row H Hrow)
    as [[title [_ Htitle]] [Hne _]].
  split; [exact Hne |].
  split; [rewrite Htitle; apply js_trim_idempotent |].
  unfold createReport in H.
  assert (Hsame : d' = d -> False).
  { intros ->. apply (f_equal (@length report_row)) in Hrow.
    rewrite length_app in Hrow. simpl in Hrow. lia. }
  destruct (req_scanId body) as [sid |]; [| injection H as _ Hd; exfalso; exact (Hsame (eq_sym Hd))].
  destruct (req_roosterId body) as [rid |];
    [| injection H as _ Hd; exfalso; exact (Hsame (eq_sym Hd))].
  destruct (req_title body) as [t |];
    [| injection H as _ Hd; exfalso; exact (Hsame (eq_sym Hd))].
  destruct (_ || _); [injection H as _ Hd; exfalso; exact (Hsame (eq_sym Hd)) |].
  destruct (select_scan _ _ _) as [scan |];
    [| injection H as _ Hd; exfalso; exact (Hsame (eq_sym Hd))].
  destruct (injury_counts _) as [[total high] |];
    [| injection H as _ Hd; exfalso; exact (Hsame (eq_sym Hd))].
  destruct ok; [| injection H as _ Hd; exfalso; exact (Hsame (eq_sym Hd))].
  injection H as _ <-. simpl in Hrow. apply app_inv_head in Hrow.
  injection Hrow as <-. simpl.
  do 3 (constructor; [apply trim_or_null_trimmed |]). constructor.
Qed.

Definition padded_request : create_report_request :=
  mk_req (Some "scan-7") (Some "rooster-1") (Some "  Weekly check ")
         (Some " limps on the left ") (Some "   ") None JUndef JUndef JUndef None.

Lemma createReport_text_trimmed_witness :
  exists row,
  createReport None padded_request (mk_db [owned_scan] []) true =
    (fst (createReport None padded_request (mk_db [owned_scan] []) true),
     mk_db [owned_scan] [row]) /\
  rep_title row <> "" /\ js_trim (rep_title row) = rep_title row /\
  Forall (fun v => v = JNull \/ exists t, v = JStr t /\ t <> "" /\ js_trim t = t)
    [rep_summary row; rep_detailed_analysis row; rep_recommendations row].
Proof.
  destruct (createReport None padded_request (mk_db [owned_scan] []) true) as [r d'] eqn:E.
  destruct d' as [sc [| row [| row' rest]]]; vm_compute in E; try discriminate E.
  injection E as Er Es Erow. subst.
  eexists. split; [reflexivity |].
  exact (createReport_text_trimmed None padded_request (mk_db [owned_scan] [])
           (mk_db [owned_scan] [_]) true _ _ eq_refl eq_refl).
Defined.

(** The notes of a row inserted by createScan are null or a non-empty
    string already trimmed. *)
Theorem createScan_notes_trimmed (userId : string) (body : jsval) (row : scan_insert) :
  createScan_data userId body = CSInsert row ->
  ins_notes row = JNull \/ exists t, ins_notes row = JStr t /\ t <> "" /\ js_trim t = t.
Proof.
  unfold createScan_data.
  destruct (get_strict body "results"); [| discriminate].
  destruct (truthy j); [| discriminate]. simpl.
  destruct (injury_entries _ _ _); [| discriminate].
  destruct (notes_of (get body "notes")) as [notes |] eqn:En; [| discriminate].
  intros H. injection H as <-. simpl.
  unfold notes_of in En. destruct (get body "notes"); try discriminate;
    try (injection En as <-; left; reflexivity).
  destruct (String.eqb (js_trim s) "") eqn:E; injection En as <-; [left; reflexivity |].
  right. exists (js_trim s). split; [reflexivity |]. split.
  - apply String.eqb_neq. exact E.
  - apply js_trim_idempotent.
Qed.

Lemma createScan_notes_trimmed_witness :
  exists row, createScan_data placeholder_user scan_body = CSInsert row /\
  (ins_notes row = JNull \/ exists t, ins_notes row = JStr t /\ t <> "" /\ js_trim t = t).
Proof.
  destruct (createScan_data placeholder_user scan_body) as [| | row] eqn:E;
    [vm_compute in E; discriminate E | vm_compute in E; discriminate E |].
  exists row. split; [reflexivity |].
  exact (createScan_notes_trimmed placeholder_user scan_body row E).
Defined.

(* ========================================================================== *)
(** * routes/scans.ts: getScans *)

Lemma map_opt_none {A B} (f : A -> option B) (l : list A) :
  map_opt f l = None <-> exists x, In x l /\ f x = None.
Proof.
  induction l as [| x r IH]; simpl.
  - split; [discriminate | intros [y [[] _]]].
  - destruct (f x) as [y |] eqn:Ef.
    + destruct (map_opt f r) as [ys |].
      * split; [discriminate |]. intros [z [[<- | Hz] Hfz]]; [congruence |].
        assert (Hn : Some ys = None) by (apply IH; exists z; auto). discriminate.
      * split; [intros _ | reflexivity].
        destruct (proj1 IH eq_refl) as [z [Hz Hfz]]. exists z. auto.
    + split; [intros _; exists x; auto | reflexivity].
Qed.

Lemma map_opt_length {A B} (f : A -> option B) (l : list A) (l' : list B) :
  map_opt f l = Some l' -> length l' = length l.
Proof.
  revert l'. induction l as [| x r IH]; intros l' H; simpl in H.
  - injection H as <-. reflexivity.
  - destruct (f x), (map_opt f r) as [ys |] eqn:E; try discriminate.
    injection H as <-. simpl. f_equal. apply IH. reflexivity.
Qed.

Lemma some_severe_after_injuries (l : list jsval) (inj : list jsval) :
  map_opt (fun inj => option_map (fun t => js_or t (JStr "Unknown")) (get_strict inj "type")) l
    = Some inj ->
  some_severe l <> None.
Proof.
  revert inj. induction l as [| x r IH]; intros inj H; simpl; [discriminate |].
  simpl in H. destruct x; simpl in H |- *; try discriminate H;
    destruct (map_opt _ r) as [ys |] eqn:E; try discriminate H;
    (try destruct (is_str _ "severe")); first [discriminate | exact (IH ys eq_refl)].
Qed.

(** The getScans mapper fails (a TypeError answered 500) exactly on a row
    whose injury array holds a [null] or [undefined] entry. *)
Lemma map_scan_list_none (scan : scan_row) :
  map_scan_list scan = None <->
  exists l, injury_detections scan = JArr l /\ (In JNull l \/ In JUndef l).
Proof.
  unfold map_scan_list.
  destruct (injuries_of (injury_detections scan)) as [inj |] eqn:Ei.
  - destruct (severity_from_injuries (injury_detections scan)) as [sev |] eqn:Es.
    + split; [discriminate |]. intros [l [Hl Hin]].
      rewrite Hl in Ei. simpl in Ei.
      assert (Hn : map_opt (fun inj => option_map (fun t => js_or t (JStr "Unknown"))
                                                  (get_strict inj "type")) l = None).
      { apply map_opt_none. destruct Hin as [Hin | Hin]; eexists; split; eauto. }
      congruence.
    + exfalso. unfold severity_from_injuries in Es.
      destruct (injury_detections scan) as [| | | | | [| y ys] |]; try discriminate.
      destruct (some_severe (y :: ys)) eqn:Eb; [simpl in Es; discriminate Es |].
      exact (some_severe_after_injuries _ _ Ei Eb).
  - split; [intros _ | intros _; reflexivity].
    unfold injuries_of in Ei. destruct (injury_detections scan) as [| | | | | l |]; try discriminate.
    exists l. split; [reflexivity |].
    apply map_opt_none in Ei. destruct Ei as [x [Hx Hfx]].
    destruct x; try discriminate; [right | left]; exact Hx.
Qed.

(** getScans lists the placeholder user's rows, one mapped scan per row,
    each with that user's id; a single row whose injury array holds a
    [null] entry turns the whole listing into the 500 answer. *)
Theorem getScans_listing (authHeader : option string) (rows : list scan_row) :
  (getScans authHeader rows = ScansFail <->
   exists r, In r rows /\ scan_user_id r = placeholder_user /\
     exists l, injury_detections r = JArr l /\ (In JNull l \/ In JUndef l)) /\
  (forall ms, getScans authHeader rows = ScansOk ms ->
   length ms = length (filter (fun r => String.eqb (scan_user_id r) placeholder_user) rows) /\
   Forall (fun m => m_userId m = placeholder_user) ms).
Proof.
  unfold getScans. rewrite getUserIdFromAuth_placeholder.
  set (own := filter (fun r => String.eqb (scan_user_id r) placeholder_user) rows).
  split.
  - destruct (map_opt map_scan_list own) as [ms |] eqn:E.
    + split; [discriminate |]. intros [r [Hin [Hu Hr]]].
      apply map_scan_list_none in Hr.
      assert (Hn : map_opt map_scan_list own = None).
      { apply map_opt_none. exists r. split; [| exact Hr].
        apply filter_In. split; [exact Hin | apply String.eqb_eq; exact Hu]. }
      congruence.
    + split; [intros _ | reflexivity].
      apply map_opt_none in E. destruct E as [r [Hin Hr]].
      apply filter_In in Hin. destruct Hin as [Hin Hu]. apply String.eqb_eq in Hu.
      exists r. split; [exact Hin |]. split; [exact Hu |].
      apply map_scan_list_none. exact Hr.
  - intros ms H. destruct (map_opt map_scan_list own) as [ms' |] eqn:E; [| discriminate].
    injection H as <-. split; [exact (map_opt_length _ _ _ E) |].
    assert (Hown : Forall (fun r => scan_user_id r = placeholder_user) own).
    { apply Forall_forall. intros r Hr. apply filter_In in Hr.
      apply String.eqb_eq. exact (proj2 Hr). }
    clearbody own. revert ms' E. induction own as [| r rest IH]; intros ms' E.
    + injection E as <-. constructor.
    + simpl in E. inversion Hown as [| ? ? Hr Hrest]; subst.
      destruct (map_scan_list r) as [m |] eqn:Em; [| discriminate].
      destruct (map_opt map_scan_list rest) as [ms |]; [| discriminate].
      injection E as <-. constructor; [| exact (IH Hrest ms eq_refl)].
      unfold map_scan_list in Em.
      destruct (injuries_of _); [| discriminate].
      destruct (severity_from_injuries _); [| discriminate].
      injection Em as <-. exact Hr.
Qed.
